(** * COSCUP session tooling: normalizer, tag classifiers, aggregator

    A shallow embedding of the data-preparation scripts of mcp-coscup:

    - [data/fetch_pretalx_data.py]: [get_answer_value],
      [classify_session_tags], [parse_slot_time], [process_session] and the
      grouping and sorting loop of [run];
    - [data/align_data.py]: [generate_fallback_tags] and the session loop of
      [generate_aligned_go_data];
    - [generate_embedded_data.py]: [generate_tags].

    Python [str] values are lists of Unicode code points, so that [len] and
    slicing count what Python counts.  Dictionaries are [gmap]s, optional
    dictionary entries (read with [.get]) are [option]s, and the only
    exception the embedded code can raise on well-typed records is the
    [ValueError] of [datetime.fromisoformat]. *)

From Stdlib Require Import ZArith NArith List Bool Ascii String Sorting.Sorted
  Sorting.Permutation DecimalString Lia.
From stdpp Require Import gmap list fin_maps.

Local Open Scope N_scope.

(** ** Python strings *)

Definition char : Type := N.
Definition str : Type := list char.

Module Utf8.

(** Source literals are written as they stand in the Python files and
    decoded from UTF-8 into code points. *)

Definition cont (b : N) : N := N.land b 63.

Fixpoint decode (bs : list N) : str :=
  match bs with
  | [] => []
  | b0 :: r0 =>
    if b0 <? 128 then b0 :: decode r0
    else if b0 <? 224 then
      match r0 with
      | b1 :: r1 => N.lor (N.shiftl (N.land b0 31) 6) (cont b1) :: decode r1
      | _ => []
      end
    else if b0 <? 240 then
      match r0 with
      | b1 :: b2 :: r2 =>
        N.lor (N.shiftl (N.land b0 15) 12)
              (N.lor (N.shiftl (cont b1) 6) (cont b2)) :: decode r2
      | _ => []
      end
    else
      match r0 with
      | b1 :: b2 :: b3 :: r3 =>
        N.lor (N.shiftl (N.land b0 7) 18)
              (N.lor (N.shiftl (cont b1) 12)
                     (N.lor (N.shiftl (cont b2) 6) (cont b3))) :: decode r3
      | _ => []
      end
  end.

Definition of_string (s : string) : str :=
  decode (List.map N_of_ascii (list_ascii_of_string s)).

End Utf8.

Abbreviation u := Utf8.of_string.

Definition dquote : str := [34].
Definition backslash : str := [92].
Definition newline : str := [10].
Definition tab : str := [9].

(** [k in t]: substring test. *)
Fixpoint startswith (k t : str) : bool :=
  match k, t with
  | [], _ => true
  | _ :: _, [] => false
  | a :: k', b :: t' => (a =? b) && startswith k' t'
  end.

Fixpoint contains (k t : str) : bool :=
  startswith k t ||
  match t with
  | [] => false
  | _ :: t' => contains k t'
  end.

(** [any(keyword in text for keyword in keywords)] *)
Definition any_in (keywords : list str) (text : str) : bool :=
  existsb (fun keyword => contains keyword text) keywords.

(** [s.replace(c, by)] for a one-character pattern [c]. *)
Definition replace_char (c : char) (by_ : str) (s : str) : str :=
  flat_map (fun x => if x =? c then by_ else [x]) s.

(** [sep.join(parts)] *)
Fixpoint join (sep : str) (parts : list str) : str :=
  match parts with
  | [] => []
  | [p] => p
  | p :: rest => p ++ sep ++ join sep rest
  end.

(** [str(n)] for an [int]. *)
Definition str_of_Z (n : Z) : str :=
  u (NilZero.string_of_int (Z.to_int n)).

(** The characters for which [str.isspace] holds. *)
Definition isspace (c : char) : bool :=
  ((9 <=? c) && (c <=? 13)) || ((28 <=? c) && (c <=? 32)) ||
  (c =? 133) || (c =? 160) || (c =? 5760) ||
  ((8192 <=? c) && (c <=? 8202)) || (c =? 8232) || (c =? 8233) ||
  (c =? 8239) || (c =? 8287) || (c =? 12288).

Fixpoint lstrip (s : str) : str :=
  match s with
  | [] => []
  | c :: s' => if isspace c then lstrip s' else s
  end.

Definition rstrip (s : str) : str := rev (lstrip (rev s)).

(** [s.strip()] *)
Definition strip (s : str) : str := rstrip (lstrip s).

(** Comparison of [str] values: lexicographic on code points. *)
Fixpoint str_lt (a b : str) : bool :=
  match a, b with
  | _, [] => false
  | [], _ :: _ => true
  | x :: a', y :: b' => (x <? y) || ((x =? y) && str_lt a' b')
  end.

Definition str_le (a b : str) : bool := negb (str_lt b a).

(** Truthiness of an optional string: [None] and [''] are falsy. *)
Definition truthy (o : option str) : bool :=
  match o with
  | Some (_ :: _) => true
  | _ => false
  end.

(** [a or b] where [b] is a string. *)
Definition or_else (o : option str) (d : str) : str :=
  match o with
  | Some (c :: s) => c :: s
  | _ => d
  end.

(** [a or b] where [b] may be [None] as well. *)
Definition or_opt (o1 o2 : option str) : option str :=
  if truthy o1 then o1 else o2.

(** ** The Python runtime

    Two library functions are taken as an interface: [str.lower] (the
    Unicode lowercase mapping) and [datetime.fromisoformat] (which raises
    [ValueError] on text it cannot parse, modelled by [None]). *)

Record datetime := {
  dt_year : N; dt_month : N; dt_day : N;
  dt_hour : N; dt_minute : N; dt_second : N
}.

Class PyRuntime := {
  str_lower : str -> str;
  datetime_fromisoformat : str -> option datetime
}.

Inductive exn := ValueError | KeyError.

Inductive result (A : Type) : Type :=
| Ok (a : A)
| Raise (e : exn).
Arguments Ok {A} a.
Arguments Raise {A} e.

#[global] Instance result_bind : MBind result :=
  fun A B (k : A -> result B) (r : result A) =>
    match r with
    | Ok a => k a
    | Raise e => Raise e
    end.

(** [d[key]] on an entry that may be absent. *)
Definition getitem {A} (o : option A) : result A :=
  match o with
  | Some a => Ok a
  | None => Raise KeyError
  end.

(** [if cond: tags.append(tag)] *)
Definition append_if (cond : bool) (tag : str) (tags : list str) : list str :=
  if cond then tags ++ [tag] else tags.

(** ** Tag vocabulary (the display labels) *)

Definition TagAI : str := u "🧠 AI".
Definition TagLanguages : str := u "🗣️ Languages".
Definition TagWeb3 : str := u "⛓️ Web3".
Definition TagDatabase : str := u "🗃️ Database".
Definition TagSecurity : str := u "🔒 Security".
Definition TagHardware : str := u "🛠️ Hardware".
Definition TagVehicle : str := u "🚗 Vehicle".
Definition TagNetwork : str := u "🌐 Network".
Definition TagDevOps : str := u "🚀️ DevOps".
Definition TagSystem : str := u "💻 System".
Definition TagEnterprise : str := u "🏢 Enterprise".
Definition TagData : str := u "📊 Data".
Definition TagGaming : str := u "🎮 Gaming".
Definition TagAgriculture : str := u "🌾 Agriculture".
Definition TagHealthcare : str := u "⚕️ Healthcare".
Definition TagKeynote : str := u "🔑 Keynote".
Definition TagPolicy : str := u "📜️ Policy".
Definition TagGlobal : str := u "🌍 Global".
Definition TagOpenData : str := u "👐️ OpenData".
Definition TagEducation : str := u "🎓 Education".
Definition TagSocial : str := u "🍻 Social".
Definition TagSideProject : str := u "💡 SideProject".

(** ** Records

    An entry read with [.get] is an [option]: [None] is the absent key.
    Present values are strings, numbers and lists; a JSON [null] is not
    represented.  The code calls string and list methods on several such
    values, so nothing below says which exceptions a record with [null]
    values raises. *)

(** A slot of a submission, as the API returns it. *)
Record Slot := {
  slot_start : option str;
  slot_end : option str;
  slot_room : option Z
}.

Record Answer := {
  answer_question : option Z;
  answer_answer : option str
}.

(** A raw submission.  [code] and [title] are read with [submission[...]],
    the other entries with [submission.get(...)]. *)
Record Submission := {
  sub_code : str;
  sub_title : str;
  sub_abstract : option str;
  sub_speakers : option (list str);
  sub_track : option Z;
  sub_slots : option (list Slot);
  sub_answers : option (list Answer)
}.

(** A room or a track of the lookup tables: [{'name': {'en': .., 'zh-tw': ..}}]. *)
Record Info := { info_name : option (gmap str str) }.

Record Speaker := { speaker_name : option str }.

(** The dictionary [process_session] returns. *)
Record Session := {
  code : str;
  title : str;
  speakers : list str;
  start : str;
  end_ : str;
  track : str;
  abstract : str;
  language : str;
  difficulty : str;
  room : str;
  day : str;
  tags : list str;
  url : str
}.

Definition truthy_int (o : option Z) : bool :=
  match o with
  | Some z => negb (z =? 0)%Z
  | None => false
  end.

(** [info.get('name', {}).get(locale)] *)
Definition get_name (info : Info) (locale : str) : option str :=
  default ∅ (info_name info) !! locale.

Definition no_info : Info := {| info_name := None |}.

(** ** [fetch_pretalx_data.py] *)

Module Pretalx.
Section WithRuntime.
Context `{!PyRuntime}.

Definition two_digits (n : N) : str :=
  if n <? 10 then u "0" ++ str_of_Z (Z.of_N n) else str_of_Z (Z.of_N n).

(** [dt.strftime("%H:%M")] *)
Definition strftime_HM (dt : datetime) : str :=
  two_digits (dt_hour dt) ++ u ":" ++ two_digits (dt_minute dt).

Definition parse_slot_time (slot : Slot) : result (str * str * str) :=
  s ← getitem (slot_start slot);
  start_dt ← match datetime_fromisoformat (replace_char 90 (u "+00:00") s) with
              | Some dt => Ok dt
              | None => Raise ValueError
              end;
  e ← getitem (slot_end slot);
  end_dt ← match datetime_fromisoformat (replace_char 90 (u "+00:00") e) with
            | Some dt => Ok dt
            | None => Raise ValueError
            end;
  let taiwan_start := start_dt in
  let taiwan_end := end_dt in
  let day := u "Aug." ++ str_of_Z (Z.of_N (dt_day taiwan_start)) in
  let start_time := strftime_HM taiwan_start in
  let end_time := strftime_HM taiwan_end in
  Ok (start_time, end_time, day).

Fixpoint get_answer_value (answers : list Answer) (question_id : Z)
  : option str :=
  match answers with
  | [] => None
  | answer :: rest =>
    if match answer_question answer with
       | Some q => (q =? question_id)%Z
       | None => false
       end
    then Some (strip (default [] (answer_answer answer)))
    else get_answer_value rest question_id
  end.

Definition classify_session_tags (track_name title abstract : str)
  : list str :=
  let tags : list str := [] in
  let text := str_lower (track_name ++ u " " ++ title ++ u " " ++ abstract) in
  let tags :=
    append_if (any_in [u "ai"; u "machine learning"; u "neural"; u "deep learning";
               u "llm"; u "chatgpt"] text)
      (TagAI) tags in
  let tags :=
    append_if (any_in [u "security"; u "secure"; u "attack"; u "vulnerability";
               u "encryption"; u "privacy"] text)
      (TagSecurity) tags in
  let tags :=
    append_if (any_in [u "python"; u "go"; u "rust"; u "javascript"; u "kotlin";
               u "java"; u "ruby"] text)
      (TagLanguages) tags in
  let tags :=
    append_if (any_in [u "database"; u "sql"; u "postgresql"; u "mysql"; u "redis"]
              text)
      (TagDatabase) tags in
  let tags :=
    append_if (any_in [u "devops"; u "kubernetes"; u "docker"; u "cloud";
               u "deployment"] text)
      (TagDevOps) tags in
  let tags :=
    append_if (any_in [u "hardware"; u "raspberry pi"; u "iot"; u "embedded"] text)
      (TagHardware) tags in
  let tags :=
    append_if (any_in [u "blockchain"; u "web3"; u "cryptocurrency"; u "nft"] text)
      (TagWeb3) tags in
  let tags :=
    append_if (any_in [u "network"; u "tcp"; u "http"; u "api"] text)
      (TagNetwork) tags in
  let tags :=
    append_if (any_in [u "system"; u "linux"; u "kernel"; u "operating"] text)
      (TagSystem) tags in
  let tags :=
    append_if (any_in [u "education"; u "teaching"; u "learning"; u "student"] text)
      (TagEducation) tags in
  let tags :=
    append_if (any_in [u "policy"; u "license"; u "legal"; u "governance"] text)
      (TagPolicy) tags in
  let tags :=
    append_if (any_in [u "social"; u "community"; u "networking"; u "chat"] text)
      (TagSocial) tags in
  match tags with
  | [] =>
    if contains (u "keynote") text || contains (u "opening") text
    then tags ++ [TagKeynote]
    else tags ++ [TagSystem]
  | _ :: _ => tags
  end.

Definition difficulty_map : gmap str str :=
  list_to_map [(u "Beginner", u "入門");
               (u "Intermediate", u "中階");
               (u "Advanced", u "進階")].

Definition language_map : gmap str str :=
  list_to_map [(u "Chinese", u "漢語");
               (u "English", u "英語");
               (u "Japanese", u "日本語")].

(** [abstract[:200] + '...' if len(abstract) > 200 else abstract] *)
Definition truncate_abstract (abstract : str) : str :=
  if (200 <? length abstract)%nat
  then firstn 200 abstract ++ u "..."
  else abstract.

Definition process_session (submission : Submission)
    (speakers : gmap str Speaker) (rooms tracks : gmap Z Info)
  : result (option Session) :=
  match sub_slots submission with
  | None | Some [] => Ok None
  | Some (slot :: _) =>
    if negb (truthy (slot_start slot)) || negb (truthy (slot_end slot))
       || negb (truthy_int (slot_room slot))
    then Ok None
    else
      '(start_time, end_time, day) ← parse_slot_time slot;
      room_id ← getitem (slot_room slot);
      let room_info := default no_info (rooms !! room_id) in
      let room_name :=
        or_else (or_opt (get_name room_info (u "en"))
                        (get_name room_info (u "zh-tw")))
                (u "Room" ++ str_of_Z room_id) in
      let track_id := sub_track submission in
      let track_info :=
        if truthy_int track_id
        then default no_info (track_id ≫= (tracks !!.))
        else no_info in
      let track_name :=
        or_else (or_opt (get_name track_info (u "zh-tw"))
                        (get_name track_info (u "en")))
                (u "General") in
      let speaker_names :=
        List.map (fun speaker_code =>
                    default speaker_code
                      (speakers !! speaker_code ≫= speaker_name))
                 (default [] (sub_speakers submission)) in
      let answers := default [] (sub_answers submission) in
      let difficulty := or_else (get_answer_value answers 59) (u "入門") in
      let language := or_else (get_answer_value answers 57) (u "漢語") in
      let difficulty := default difficulty (difficulty_map !! difficulty) in
      let language := default language (language_map !! language) in
      let abstract := or_else (sub_abstract submission) [] in
      let tags :=
        classify_session_tags track_name (sub_title submission) abstract in
      Ok (Some {|
        code := sub_code submission;
        title := sub_title submission;
        speakers := speaker_names;
        start := start_time;
        end_ := end_time;
        track := track_name;
        abstract := truncate_abstract abstract;
        language := language;
        difficulty := difficulty;
        room := room_name;
        day := day;
        tags := tags;
        url := u "https://coscup.org/2025/sessions/" ++ sub_code submission
      |})
  end.

(** [list.sort(key=...)] is a stable sort; the result of a stable sort is
    determined by the input, and this insertion sort computes it. *)
Fixpoint insert_by {A} (key : A -> str) (x : A) (l : list A) : list A :=
  match l with
  | [] => [x]
  | y :: l' =>
    if str_lt (key y) (key x) then y :: insert_by key x l' else x :: l
  end.

Fixpoint sort_by {A} (key : A -> str) (l : list A) : list A :=
  match l with
  | [] => []
  | x :: l' => insert_by key x (sort_by key l')
  end.

(** The body of the grouping loop of [run]: create the day and the room
    on first use, then append. *)
Definition insert_session (sessions_by_day_room : gmap str (gmap str (list Session)))
    (session : Session) : gmap str (gmap str (list Session)) :=
  let day := day session in
  let room := room session in
  let by_room := default ∅ (sessions_by_day_room !! day) in
  let bucket := default [] (by_room !! room) in
  <[day := <[room := bucket ++ [session]]> by_room]> sessions_by_day_room.

(** The sorting loop of [run]. *)
Definition sort_buckets (sessions_by_day_room : gmap str (gmap str (list Session)))
  : gmap str (gmap str (list Session)) :=
  (fun by_room : gmap str (list Session) => sort_by start <$> by_room)
    <$> sessions_by_day_room.

(** Grouping and sorting of a batch of sessions. *)
Definition aggregate (sessions : list Session)
  : gmap str (gmap str (list Session)) :=
  sort_buckets (fold_left insert_session sessions ∅).

Fixpoint run_loop (submissions : list Submission)
    (speakers : gmap str Speaker) (rooms tracks : gmap Z Info)
    (sessions_by_day_room : gmap str (gmap str (list Session)))
  : result (gmap str (gmap str (list Session))) :=
  match submissions with
  | [] => Ok sessions_by_day_room
  | submission :: rest =>
    session ← process_session submission speakers rooms tracks;
    match session with
    | Some session =>
      run_loop rest speakers rooms tracks
               (insert_session sessions_by_day_room session)
    | None => run_loop rest speakers rooms tracks sessions_by_day_room
    end
  end.

(** [run], after the four tables have been fetched. *)
Definition run (submissions : list Submission)
    (speakers : gmap str Speaker) (rooms tracks : gmap Z Info)
  : result (gmap str (gmap str (list Session))) :=
  sessions_by_day_room ← run_loop submissions speakers rooms tracks ∅;
  Ok (sort_buckets sessions_by_day_room).

(** The sessions of a batch of submissions, in input order. *)
Fixpoint normalize_all (submissions : list Submission)
    (speakers : gmap str Speaker) (rooms tracks : gmap Z Info)
  : result (list Session) :=
  match submissions with
  | [] => Ok []
  | submission :: rest =>
    session ← process_session submission speakers rooms tracks;
    sessions ← normalize_all rest speakers rooms tracks;
    Ok (match session with
        | Some session => session :: sessions
        | None => sessions
        end)
  end.

End WithRuntime.
End Pretalx.

(** ** [align_data.py] *)

Module Align.
Section WithRuntime.
Context `{!PyRuntime}.

Definition generate_fallback_tags (session : Session) : list str :=
  let tags : list str := [] in
  let text :=
    str_lower (track session ++ u " " ++ title session ++ u " "
               ++ abstract session) in
  let tags :=
    append_if (any_in [u "security"; u "secure"; u "attack"; u "vulnerability";
               u "encryption"] text)
      (TagSecurity) tags in
  let tags :=
    append_if (any_in [u "kernel"; u "linux"; u "system"; u "os"; u "operating"] text)
      (TagSystem) tags in
  let tags :=
    append_if (any_in [u "ai"; u "machine learning"; u "neural"; u "deep learning";
               u "llm"] text)
      (TagAI) tags in
  let tags :=
    append_if (any_in [u "python"; u "go"; u "rust"; u "javascript"; u "kotlin";
               u "java"; u "ruby"] text)
      (TagLanguages) tags in
  let tags :=
    append_if (any_in [u "database"; u "sql"; u "postgresql"; u "mysql"] text)
      (TagDatabase) tags in
  let tags :=
    append_if (any_in [u "devops"; u "kubernetes"; u "docker"; u "cloud"] text)
      (TagDevOps) tags in
  let tags :=
    append_if (any_in [u "hardware"; u "raspberry pi"; u "iot"; u "embedded"] text)
      (TagHardware) tags in
  let tags :=
    append_if (any_in [u "blockchain"; u "web3"; u "cryptocurrency"] text)
      (TagWeb3) tags in
  let tags :=
    append_if (any_in [u "network"; u "tcp"; u "http"; u "api"] text)
      (TagNetwork) tags in
  let tags :=
    append_if (any_in [u "policy"; u "license"; u "legal"; u "governance"] text)
      (TagPolicy) tags in
  let tags :=
    append_if (any_in [u "social"; u "community"; u "networking"; u "chat"] text)
      (TagSocial) tags in
  match tags with
  | [] =>
    if contains (u "keynote") text || contains (u "opening") text
    then tags ++ [TagKeynote]
    else tags ++ [TagSystem]
  | _ :: _ => tags
  end.

Record Stats := {
  total_sessions : nat;
  existing_tags_used : nat;
  new_tags_generated : nat;
  missing_sessions : list str
}.

Definition stats0 : Stats :=
  {| total_sessions := 0; existing_tags_used := 0;
     new_tags_generated := 0; missing_sessions := [] |}.

(** Display label to Go constant. *)
Definition tag_map : gmap str str :=
  list_to_map [
    (TagAI, u "TagAI"); (TagLanguages, u "TagLanguages");
    (TagWeb3, u "TagWeb3"); (TagDatabase, u "TagDatabase");
    (TagSecurity, u "TagSecurity"); (TagHardware, u "TagHardware");
    (TagVehicle, u "TagVehicle"); (TagNetwork, u "TagNetwork");
    (TagDevOps, u "TagDevOps"); (TagSystem, u "TagSystem");
    (TagEnterprise, u "TagEnterprise"); (TagData, u "TagData");
    (TagGaming, u "TagGaming"); (TagAgriculture, u "TagAgriculture");
    (TagHealthcare, u "TagHealthcare"); (TagKeynote, u "TagKeynote");
    (TagPolicy, u "TagPolicy"); (TagGlobal, u "TagGlobal");
    (TagOpenData, u "TagOpenData"); (TagEducation, u "TagEducation");
    (TagSocial, u "TagSocial"); (TagSideProject, u "TagSideProject")].

Definition quoted (s : str) : str := dquote ++ s ++ dquote.

(** [tag_map.get(tag, f'"{tag}"')] *)
Definition tag_constant (tag : str) : str :=
  default (quoted tag) (tag_map !! tag).

(** The four [replace] calls applied to title, track and abstract. *)
Definition escape (s : str) : str :=
  replace_char 13 (backslash ++ u "r")
    (replace_char 10 (backslash ++ u "n")
      (replace_char 34 (backslash ++ dquote)
        (replace_char 92 (backslash ++ backslash) s))).

Definition entry_line (label value : str) : str :=
  tab ++ tab ++ tab ++ tab ++ label ++ value ++ u "," ++ newline.

(** The Go literal of one session. *)
Definition session_literal (session : Session) (tags_str : str) : str :=
  let speakers_str := join (u ", ") (List.map quoted (speakers session)) in
  let title := escape (title session) in
  let track := escape (track session) in
  let abstract := escape (abstract session) in
  tab ++ tab ++ tab ++ u "{" ++ newline ++
  entry_line (u "Code:       ") (quoted (code session)) ++
  entry_line (u "Title:      ") (quoted title) ++
  entry_line (u "Speakers:   ") (u "[]string{" ++ speakers_str ++ u "}") ++
  entry_line (u "Start:      ") (quoted (start session)) ++
  entry_line (u "End:        ") (quoted (end_ session)) ++
  entry_line (u "Track:      ") (quoted track) ++
  entry_line (u "Abstract:   ") (quoted abstract) ++
  entry_line (u "Language:   ") (quoted (language session)) ++
  entry_line (u "Difficulty: ") (quoted (difficulty session)) ++
  entry_line (u "Room:       ") (quoted (room session)) ++
  entry_line (u "Day:        ") (quoted (day session)) ++
  entry_line (u "URL:        ") (quoted (url session)) ++
  entry_line (u "Tags:       ") (u "[]string{" ++ tags_str ++ u "}") ++
  tab ++ tab ++ tab ++ u "}," ++ newline.

(** The choice between the known tags and the keyword classifier, with
    the counters it updates. *)
Definition select_tags (existing_tags : gmap str (list str))
    (session : Session) (stats : Stats) : list str * Stats :=
  let stats :=
    {| total_sessions := S (total_sessions stats);
       existing_tags_used := existing_tags_used stats;
       new_tags_generated := new_tags_generated stats;
       missing_sessions := missing_sessions stats |} in
  let code := code session in
  match existing_tags !! code with
  | Some tags =>
    (tags,
     {| total_sessions := total_sessions stats;
        existing_tags_used := S (existing_tags_used stats);
        new_tags_generated := new_tags_generated stats;
        missing_sessions := missing_sessions stats |})
  | None =>
    (generate_fallback_tags session,
     {| total_sessions := total_sessions stats;
        existing_tags_used := existing_tags_used stats;
        new_tags_generated := S (new_tags_generated stats);
        missing_sessions := missing_sessions stats ++ [code] |})
  end.

(** One iteration of the session loop. *)
Definition emit_session (existing_tags : gmap str (list str))
    (acc : str * Stats) (session : Session) : str * Stats :=
  let '(go_code, stats) := acc in
  let '(tags, stats) := select_tags existing_tags session stats in
  let tag_constants := List.map tag_constant tags in
  let tags_str := join (u ", ") tag_constants in
  (go_code ++ session_literal session tags_str, stats).

Definition emit_room (existing_tags : gmap str (list str))
    (rooms : gmap str (list Session)) (acc : str * Stats) (room : str)
  : str * Stats :=
  let '(go_code, stats) := acc in
  let sessions := default [] (rooms !! room) in
  let go_code := go_code ++ tab ++ tab ++ quoted room ++ u ": {" ++ newline in
  let '(go_code, stats) :=
    fold_left (emit_session existing_tags) sessions (go_code, stats) in
  (go_code ++ tab ++ tab ++ u "}," ++ newline, stats).

Definition sorted_keys {V} (m : gmap str V) : list str :=
  Pretalx.sort_by id (List.map fst (map_to_list m)).

Definition emit_day (existing_tags : gmap str (list str))
    (new_sessions_data : gmap str (gmap str (list Session)))
    (acc : str * Stats) (day : str) : str * Stats :=
  let '(go_code, stats) := acc in
  let rooms := default ∅ (new_sessions_data !! day) in
  let go_code := go_code ++ tab ++ quoted day ++ u ": {" ++ newline in
  let '(go_code, stats) :=
    fold_left (emit_room existing_tags rooms) (sorted_keys rooms)
              (go_code, stats) in
  (go_code ++ tab ++ u "}," ++ newline, stats).

(** [generate_aligned_go_data]; [go_header] is the constant preamble the
    function starts [go_code] with. *)
Definition generate_aligned_go_data (go_header : str)
    (new_sessions_data : gmap str (gmap str (list Session)))
    (existing_tags : gmap str (list str)) : str * Stats :=
  let '(go_code, stats) :=
    fold_left (emit_day existing_tags new_sessions_data)
              (sorted_keys new_sessions_data) (go_header, stats0) in
  (go_code ++ u "}" ++ newline, stats).

(** [tag_map] of [load_existing_tags_mapping]: Go constant to display
    label. *)
Definition constant_map : gmap str str :=
  list_to_map [
    (u "TagAI", TagAI); (u "TagLanguages", TagLanguages);
    (u "TagWeb3", TagWeb3); (u "TagDatabase", TagDatabase);
    (u "TagSecurity", TagSecurity); (u "TagHardware", TagHardware);
    (u "TagVehicle", TagVehicle); (u "TagNetwork", TagNetwork);
    (u "TagDevOps", TagDevOps); (u "TagSystem", TagSystem);
    (u "TagEnterprise", TagEnterprise); (u "TagData", TagData);
    (u "TagGaming", TagGaming); (u "TagAgriculture", TagAgriculture);
    (u "TagHealthcare", TagHealthcare); (u "TagKeynote", TagKeynote);
    (u "TagPolicy", TagPolicy); (u "TagGlobal", TagGlobal);
    (u "TagOpenData", TagOpenData); (u "TagEducation", TagEducation);
    (u "TagSocial", TagSocial); (u "TagSideProject", TagSideProject)].

(** [[tag_map.get(const, const) for const in tag_constants
      if const in tag_map]] *)
Definition labels_of_constants (tag_constants : list str) : list str :=
  List.map (fun const => default const (constant_map !! const))
    (List.filter (fun const => bool_decide (is_Some (constant_map !! const)))
       tag_constants).

(** The body of the loop of [load_existing_tags_mapping] over the matches
    of the session pattern; a match is given by its code and the [Tag...]
    constants found in its tag text. *)
Definition add_match (tags_mapping : gmap str (list str))
    (found : str * list str) : gmap str (list str) :=
  let '(code, tag_constants) := found in
  let tags := labels_of_constants tag_constants in
  match tags with
  | [] => tags_mapping
  | _ :: _ => <[code := tags]> tags_mapping
  end.

Definition load_matches (found : list (str * list str))
  : gmap str (list str) :=
  fold_left add_match found ∅.

End WithRuntime.
End Align.

(** ** [generate_embedded_data.py] *)

Module Embedded.
Section WithRuntime.
Context `{!PyRuntime}.

(** A session of [coscup_2025_by_day_room.json]; [generate_tags] reads the
    three entries with [session.get(key, '')]. *)
Record JsonSession := {
  js_track : option str;
  js_title : option str;
  js_abstract : option str
}.

Definition generate_tags (session : JsonSession) : list str :=
  let tags : list str := [] in
  let track := str_lower (default [] (js_track session)) in
  let title := str_lower (default [] (js_title session)) in
  let abstract := str_lower (default [] (js_abstract session)) in
  let tags :=
    append_if (any_in [u "ai"; u "machine learning"] track
       || any_in [u "ai"; u "ml"; u "機器學習"; u "人工智慧"; u "llm";
                  u "agent"] title
       || any_in [u "ai"; u "machine learning"; u "neural"; u "model"]
                 abstract)
      (u "TagAI") tags in
  let tags :=
    append_if (any_in [u "golang"; u "python"; u "ruby"; u "kotlin"; u "swift";
               u "jvm"; u "javascript"] track
       || any_in [u "go"; u "python"; u "ruby"; u "kotlin"; u "swift";
                  u "java"; u "js"; u "programming"] title)
      (u "TagLanguages") tags in
  let tags :=
    append_if (any_in [u "security"; u "tor"; u "hitcon"] track
       || any_in [u "security"; u "hack"; u "隱私"; u "安全"; u "attack";
                  u "privacy"] title)
      (u "TagSecurity") tags in
  let tags :=
    append_if (any_in [u "blockchain"; u "web3"] track
       || any_in [u "blockchain"; u "web3"; u "crypto"; u "defi";
                  u "區塊鏈"] title)
      (u "TagWeb3") tags in
  let tags :=
    append_if (any_in [u "postgresql"; u "database"] track
       || any_in [u "database"; u "資料庫"; u "sql"; u "postgresql"] title)
      (u "TagDatabase") tags in
  let tags :=
    append_if (any_in [u "hardware"; u "firmware"; u "system"] track
       || any_in [u "hardware"; u "firmware"; u "risc-v"; u "fpga";
                  u "embedded"] title)
      (u "TagHardware") tags in
  let tags :=
    append_if (any_in [u "vehicle"; u "automotive"] track
       || any_in [u "vehicle"; u "automotive"; u "sdv"] title)
      (u "TagVehicle") tags in
  let tags :=
    append_if (any_in [u "network"; u "networking"] track
       || any_in [u "network"; u "網路"; u "tcp"; u "http"; u "api"] title)
      (u "TagNetwork") tags in
  let tags :=
    append_if (any_in [u "devops"; u "cloud"; u "monitoring"] track
       || any_in [u "devops"; u "docker"; u "kubernetes"; u "ci/cd";
                  u "monitoring"] title)
      (u "TagDevOps") tags in
  let tags :=
    append_if (any_in [u "system software"] track
       || any_in [u "kernel"; u "linux"; u "system"; u "系統"] title)
      (u "TagSystem") tags in
  let tags :=
    append_if (any_in [u "enterprise"; u "odoo"; u "erp"] track
       || any_in [u "enterprise"; u "erp"; u "business"] title)
      (u "TagEnterprise") tags in
  let tags :=
    append_if (any_in [u "data"; u "資料"; u "analytics"; u "visualization";
               u "分析"] title)
      (u "TagData") tags in
  let tags :=
    append_if (any_in [u "policy"; u "licensing"] track
       || any_in [u "policy"; u "license"; u "政策"; u "授權"; u "開源";
                  u "legal"] title)
      (u "TagPolicy") tags in
  let tags :=
    append_if (any_in [u "japan"; u "global"; u "world tour"; u "international"]
              track
       || any_in [u "fosdem"; u "japan"; u "日本"; u "international";
                  u "global"] title)
      (u "TagGlobal") tags in
  let tags :=
    append_if (any_in [u "openstreet"; u "wikidata"; u "wikipedia"] track
       || any_in [u "openstreet"; u "wikidata"; u "wikipedia";
                  u "開放資料"] title)
      (u "TagOpenData") tags in
  let tags :=
    append_if (any_in [u "教學"; u "入門"; u "beginner"; u "tutorial";
               u "education"; u "學習"] title)
      (u "TagEducation") tags in
  let tags :=
    append_if (any_in [u "unconference"] track
       || any_in [u "bof"; u "hacking corner"; u "social"; u "交流"] title)
      (u "TagSocial") tags in
  let tags :=
    append_if (any_in [u "side project"] track
       || any_in [u "side project"; u "indie"; u "startup"] title)
      (u "TagSideProject") tags in
  let tags :=
    append_if (any_in [u "main session"] track
       || any_in [u "welcome"; u "keynote"; u "closing"] title)
      (u "TagKeynote") tags in
  let tags :=
    match tags with
    | [] => tags ++ [u "TagSystem"]
    | _ :: _ => tags
    end in
  firstn 2 tags.

(** [escape_go_string]: [None] gives the empty Go string. *)
Definition escape_go_string (s : option str) : str :=
  match s with
  | None => dquote ++ dquote
  | Some s =>
    let s := replace_char 92 (backslash ++ backslash) s in
    let s := replace_char 34 (backslash ++ dquote) s in
    let s := replace_char 13 (backslash ++ u "r") s in
    let s := replace_char 10 (backslash ++ u "n") s in
    let s := replace_char 9 (backslash ++ u "t") s in
    dquote ++ s ++ dquote
  end.

End WithRuntime.
End Embedded.

(** ** [fetch_pretalx_data.py]: the Go writer

    [generate_go_data] writes the sessions with the tags they carry.  Its
    tag table and its session literal are those of [align_data.py]; its
    escaping is not.  [go_header] is the preamble the function starts
    [go_code] with, which holds the time of the run. *)

Module GoData.

(** The two [replace] calls applied to title, track and abstract. *)
Definition escape (s : str) : str :=
  replace_char 10 (backslash ++ u "n")
    (replace_char 34 (backslash ++ dquote) s).

Definition session_literal (session : Session) : str :=
  let speakers_str := join (u ", ") (List.map Align.quoted (speakers session)) in
  let tag_constants := List.map Align.tag_constant (tags session) in
  let tags_str := join (u ", ") tag_constants in
  let title := escape (title session) in
  let track := escape (track session) in
  let abstract := escape (abstract session) in
  tab ++ tab ++ tab ++ u "{" ++ newline ++
  Align.entry_line (u "Code:       ") (Align.quoted (code session)) ++
  Align.entry_line (u "Title:      ") (Align.quoted title) ++
  Align.entry_line (u "Speakers:   ") (u "[]string{" ++ speakers_str ++ u "}") ++
  Align.entry_line (u "Start:      ") (Align.quoted (start session)) ++
  Align.entry_line (u "End:        ") (Align.quoted (end_ session)) ++
  Align.entry_line (u "Track:      ") (Align.quoted track) ++
  Align.entry_line (u "Abstract:   ") (Align.quoted abstract) ++
  Align.entry_line (u "Language:   ") (Align.quoted (language session)) ++
  Align.entry_line (u "Difficulty: ") (Align.quoted (difficulty session)) ++
  Align.entry_line (u "Room:       ") (Align.quoted (room session)) ++
  Align.entry_line (u "Day:        ") (Align.quoted (day session)) ++
  Align.entry_line (u "URL:        ") (Align.quoted (url session)) ++
  Align.entry_line (u "Tags:       ") (u "[]string{" ++ tags_str ++ u "}") ++
  tab ++ tab ++ tab ++ u "}," ++ newline.

Definition emit_session (go_code : str) (session : Session) : str :=
  go_code ++ session_literal session.

Definition emit_room (rooms : gmap str (list Session)) (go_code : str)
    (room : str) : str :=
  let sessions := default [] (rooms !! room) in
  let go_code :=
    go_code ++ tab ++ tab ++ Align.quoted room ++ u ": {" ++ newline in
  let go_code := fold_left emit_session sessions go_code in
  go_code ++ tab ++ tab ++ u "}," ++ newline.

Definition emit_day (sessions_by_day_room : gmap str (gmap str (list Session)))
    (go_code : str) (day : str) : str :=
  let rooms := default ∅ (sessions_by_day_room !! day) in
  let go_code := go_code ++ tab ++ Align.quoted day ++ u ": {" ++ newline in
  let go_code := fold_left (emit_room rooms) (Align.sorted_keys rooms) go_code in
  go_code ++ tab ++ u "}," ++ newline.

Definition generate_go_data (go_header : str)
    (sessions_by_day_room : gmap str (gmap str (list Session))) : str :=
  let go_code :=
    fold_left (emit_day sessions_by_day_room)
              (Align.sorted_keys sessions_by_day_room) go_header in
  go_code ++ u "}" ++ newline.

End GoData.

(** ** A runtime for ASCII text and pretalx timestamps

    On ASCII strings [str.lower] maps [A-Z] to [a-z] and leaves the other
    characters alone; on timestamps of the shape
    [YYYY-MM-DDTHH:MM:SS] with an optional [+HH:MM] or [-HH:MM] offset
    [datetime.fromisoformat] returns the fields as written.  The examples
    below run the embedding with this instance, on inputs of that kind. *)

Module AsciiRuntime.

Definition lower_char (c : char) : char :=
  if (65 <=? c) && (c <=? 90) then c + 32 else c.

Definition lower (s : str) : str := List.map lower_char s.

Definition digit (c : char) : option N :=
  if (48 <=? c) && (c <=? 57) then Some (c - 48) else None.

(** Exactly [n] decimal digits. *)
Fixpoint digits (n : nat) (acc : N) (s : str) : option (N * str) :=
  match n with
  | O => Some (acc, s)
  | S n' =>
    match s with
    | c :: s' => d ← digit c; digits n' (10 * acc + d) s'
    | [] => None
    end
  end.

Definition expect (c : char) (s : str) : option str :=
  match s with
  | c' :: s' => if c' =? c then Some s' else None
  | [] => None
  end.

Definition is_leap (y : N) : bool :=
  ((y mod 4 =? 0) && negb (y mod 100 =? 0)) || (y mod 400 =? 0).

Definition days_in_month (y m : N) : N :=
  if m =? 2 then (if is_leap y then 29 else 28)
  else if (m =? 4) || (m =? 6) || (m =? 9) || (m =? 11) then 30
  else 31.

Definition offset_ok (s : str) : bool :=
  match s with
  | [] => true
  | sign :: s' =>
    ((sign =? 43) || (sign =? 45)) &&
    match ('(h, s1) ← digits 2 0 s'; s2 ← expect 58 s1;
           '(m, s3) ← digits 2 0 s2;
           Some ((h <? 24) && (m <? 60) && (length s3 =? 0)%nat)) with
    | Some b => b
    | None => false
    end
  end.

Definition fromisoformat (s : str) : option datetime :=
  '(y, s) ← digits 4 0 s; s ← expect 45 s;
  '(m, s) ← digits 2 0 s; s ← expect 45 s;
  '(d, s) ← digits 2 0 s; s ← expect 84 s;
  '(hh, s) ← digits 2 0 s; s ← expect 58 s;
  '(mm, s) ← digits 2 0 s; s ← expect 58 s;
  '(ss, s) ← digits 2 0 s;
  if (1 <=? y) && (1 <=? m) && (m <=? 12) && (1 <=? d)
     && (d <=? days_in_month y m) && (hh <? 24) && (mm <? 60) && (ss <? 60)
     && offset_ok s
  then Some {| dt_year := y; dt_month := m; dt_day := d;
               dt_hour := hh; dt_minute := mm; dt_second := ss |}
  else None.

#[global] Instance runtime : PyRuntime :=
  {| str_lower := lower; datetime_fromisoformat := fromisoformat |}.

End AsciiRuntime.

(** ** Specification-side notions

    The definitions below are not translations of code: they say, in the
    words of the specification, what the code is compared with. *)

(** [k] occurs in [t] as a contiguous substring. *)
Definition substring (k t : str) : Prop :=
  exists pre post, t = pre ++ k ++ post.

(** A keyword rule: the keywords and the tag they give. *)
Definition Rule : Type := list str * str.

(** A rule fires on a text when one of its keywords occurs in it. *)
Definition fires (text : str) (r : Rule) : bool := any_in (fst r) text.

(** The tags of the firing rules, in the order of the rule table. *)
Definition fired_tags (rules : list Rule) (text : str) : list str :=
  List.map snd (List.filter (fires text) rules).

(** The last-resort default, decided on the text. *)
Definition default_tag (text : str) : str :=
  if contains (u "keynote") text || contains (u "opening") text
  then TagKeynote else TagSystem.

(** The rule table of [classify_session_tags], in declaration order. *)
Definition pretalx_rules : list Rule := [
  ([u "ai"; u "machine learning"; u "neural"; u "deep learning"; u "llm";
    u "chatgpt"], TagAI);
  ([u "security"; u "secure"; u "attack"; u "vulnerability"; u "encryption";
    u "privacy"], TagSecurity);
  ([u "python"; u "go"; u "rust"; u "javascript"; u "kotlin"; u "java";
    u "ruby"], TagLanguages);
  ([u "database"; u "sql"; u "postgresql"; u "mysql"; u "redis"], TagDatabase);
  ([u "devops"; u "kubernetes"; u "docker"; u "cloud"; u "deployment"],
   TagDevOps);
  ([u "hardware"; u "raspberry pi"; u "iot"; u "embedded"], TagHardware);
  ([u "blockchain"; u "web3"; u "cryptocurrency"; u "nft"], TagWeb3);
  ([u "network"; u "tcp"; u "http"; u "api"], TagNetwork);
  ([u "system"; u "linux"; u "kernel"; u "operating"], TagSystem);
  ([u "education"; u "teaching"; u "learning"; u "student"], TagEducation);
  ([u "policy"; u "license"; u "legal"; u "governance"], TagPolicy);
  ([u "social"; u "community"; u "networking"; u "chat"], TagSocial)].

(** The rule table of [generate_fallback_tags], in declaration order. *)
Definition fallback_rules : list Rule := [
  ([u "security"; u "secure"; u "attack"; u "vulnerability"; u "encryption"],
   TagSecurity);
  ([u "kernel"; u "linux"; u "system"; u "os"; u "operating"], TagSystem);
  ([u "ai"; u "machine learning"; u "neural"; u "deep learning"; u "llm"],
   TagAI);
  ([u "python"; u "go"; u "rust"; u "javascript"; u "kotlin"; u "java";
    u "ruby"], TagLanguages);
  ([u "database"; u "sql"; u "postgresql"; u "mysql"], TagDatabase);
  ([u "devops"; u "kubernetes"; u "docker"; u "cloud"], TagDevOps);
  ([u "hardware"; u "raspberry pi"; u "iot"; u "embedded"], TagHardware);
  ([u "blockchain"; u "web3"; u "cryptocurrency"], TagWeb3);
  ([u "network"; u "tcp"; u "http"; u "api"], TagNetwork);
  ([u "policy"; u "license"; u "legal"; u "governance"], TagPolicy);
  ([u "social"; u "community"; u "networking"; u "chat"], TagSocial)].

(** The text both pretalx-side classifiers match against. *)
Definition classifier_text `{!PyRuntime} (track title abstract : str) : str :=
  str_lower (track ++ u " " ++ title ++ u " " ++ abstract).

(** One step of a classifier: append the tag when the rule fires. *)
Definition rule_step (text : str) (tags : list str) (r : Rule) : list str :=
  append_if (fires text r) (snd r) tags.

(** The sessions of one day and room of an aggregate; no bucket, no
    sessions. *)
Definition bucket (agg : gmap str (gmap str (list Session))) (d r : str)
  : list Session :=
  default [] (agg !! d ≫= fun by_room : gmap str (list Session) => by_room !! r).

(** The sessions of a batch that belong to a day and room, in input order. *)
Definition in_bucket (d r : str) (s : Session) : Prop :=
  day s = d /\ room s = r.

#[global] Instance in_bucket_dec d r s : Decision (in_bucket d r s).
Proof. unfold in_bucket. apply _. Defined.

(** Non-decreasing keys, for Python's order on [str]. *)
Definition key_le {A} (key : A -> str) (a b : A) : Prop :=
  str_le (key a) (key b) = true.

(** Non-decreasing [start], for Python's order on [str]. *)
Definition start_le (a b : Session) : Prop :=
  str_le (start a) (start b) = true.

(** The record lacks what the normalizer requires: no slot list, an empty
    one, or a first slot without start, end or room. *)
Definition lacks_slot_or_room (submission : Submission) : Prop :=
  match sub_slots submission with
  | None | Some [] => True
  | Some (slot :: _) =>
    slot_start slot = None \/ slot_end slot = None \/ slot_room slot = None
  end.

Definition with_slots (submission : Submission) (slots : option (list Slot))
  : Submission :=
  {| sub_code := sub_code submission; sub_title := sub_title submission;
     sub_abstract := sub_abstract submission;
     sub_speakers := sub_speakers submission;
     sub_track := sub_track submission; sub_slots := slots;
     sub_answers := sub_answers submission |}.

Definition with_answers (submission : Submission)
    (answers : option (list Answer)) : Submission :=
  {| sub_code := sub_code submission; sub_title := sub_title submission;
     sub_abstract := sub_abstract submission;
     sub_speakers := sub_speakers submission;
     sub_track := sub_track submission; sub_slots := sub_slots submission;
     sub_answers := answers |}.

(** The vocabulary tables as the specification lists them. *)
Definition difficulty_table : list (str * str) :=
  [(u "Beginner", u "入門"); (u "Intermediate", u "中階");
   (u "Advanced", u "進階")].

Definition language_table : list (str * str) :=
  [(u "Chinese", u "漢語"); (u "English", u "英語");
   (u "Japanese", u "日本語")].

Fixpoint assoc (k : str) (table : list (str * str)) : option str :=
  match table with
  | [] => None
  | (k', v) :: rest => if decide (k = k') then Some v else assoc k rest
  end.

(** Table lookup with verbatim pass-through, after the answer has been
    trimmed and defaulted. *)
Definition translate (table : list (str * str)) (dflt : str)
    (answer : option str) : str :=
  match answer with
  | Some (c :: v) => default (c :: v) (assoc (c :: v) table)
  | _ => dflt
  end.

(** The first of two optional names that is a non-empty string, else the
    placeholder: [a or b or placeholder] on results of [.get]. *)
Definition first_truthy (o1 o2 : option str) (placeholder : str) : str :=
  match o1 with
  | Some (c :: n) => c :: n
  | _ => match o2 with
         | Some (c :: n) => c :: n
         | _ => placeholder
         end
  end.

(** The track entry the normalizer reads names from: the entry of the
    record's track id, the empty entry without one. *)
Definition track_info_of (tracks : gmap Z Info) (track_id : option Z) : Info :=
  match track_id with
  | Some t => if (t =? 0)%Z then no_info else default no_info (tracks !! t)
  | None => no_info
  end.

(** The raw text of the first answer to a question, [None] when the
    question has no answer. *)
Definition first_answer (answers : list Answer) (question_id : Z)
  : option str :=
  (fun a => default [] (answer_answer a)) <$>
  List.find (fun a => match answer_question a with
                      | Some q => (q =? question_id)%Z
                      | None => false
                      end) answers.

(** The collected tags of [generate_tags] before the cap: a rule has
    keywords for the track, the title and the abstract. *)
Definition FieldRule : Type := list str * list str * list str * str.

Definition field_fires (track title abstract : str) (r : FieldRule) : bool :=
  let '(kt, ki, ka, _) := r in
  any_in kt track || any_in ki title || any_in ka abstract.

Definition field_tag (r : FieldRule) : str := let '(_, _, _, t) := r in t.

Definition embedded_rules : list FieldRule := [
  ([u "ai"; u "machine learning"],
   [u "ai"; u "ml"; u "機器學習"; u "人工智慧"; u "llm"; u "agent"],
   [u "ai"; u "machine learning"; u "neural"; u "model"], u "TagAI");
  ([u "golang"; u "python"; u "ruby"; u "kotlin"; u "swift"; u "jvm";
    u "javascript"],
   [u "go"; u "python"; u "ruby"; u "kotlin"; u "swift"; u "java"; u "js";
    u "programming"], [], u "TagLanguages");
  ([u "security"; u "tor"; u "hitcon"],
   [u "security"; u "hack"; u "隱私"; u "安全"; u "attack"; u "privacy"], [],
   u "TagSecurity");
  ([u "blockchain"; u "web3"],
   [u "blockchain"; u "web3"; u "crypto"; u "defi"; u "區塊鏈"], [],
   u "TagWeb3");
  ([u "postgresql"; u "database"],
   [u "database"; u "資料庫"; u "sql"; u "postgresql"], [], u "TagDatabase");
  ([u "hardware"; u "firmware"; u "system"],
   [u "hardware"; u "firmware"; u "risc-v"; u "fpga"; u "embedded"], [],
   u "TagHardware");
  ([u "vehicle"; u "automotive"], [u "vehicle"; u "automotive"; u "sdv"], [],
   u "TagVehicle");
  ([u "network"; u "networking"],
   [u "network"; u "網路"; u "tcp"; u "http"; u "api"], [], u "TagNetwork");
  ([u "devops"; u "cloud"; u "monitoring"],
   [u "devops"; u "docker"; u "kubernetes"; u "ci/cd"; u "monitoring"], [],
   u "TagDevOps");
  ([u "system software"], [u "kernel"; u "linux"; u "system"; u "系統"], [],
   u "TagSystem");
  ([u "enterprise"; u "odoo"; u "erp"],
   [u "enterprise"; u "erp"; u "business"], [], u "TagEnterprise");
  ([], [u "data"; u "資料"; u "analytics"; u "visualization"; u "分析"], [],
   u "TagData");
  ([u "policy"; u "licensing"],
   [u "policy"; u "license"; u "政策"; u "授權"; u "開源"; u "legal"], [],
   u "TagPolicy");
  ([u "japan"; u "global"; u "world tour"; u "international"],
   [u "fosdem"; u "japan"; u "日本"; u "international"; u "global"], [],
   u "TagGlobal");
  ([u "openstreet"; u "wikidata"; u "wikipedia"],
   [u "openstreet"; u "wikidata"; u "wikipedia"; u "開放資料"], [],
   u "TagOpenData");
  ([], [u "教學"; u "入門"; u "beginner"; u "tutorial"; u "education";
        u "學習"], [], u "TagEducation");
  ([u "unconference"], [u "bof"; u "hacking corner"; u "social"; u "交流"],
   [], u "TagSocial");
  ([u "side project"], [u "side project"; u "indie"; u "startup"], [],
   u "TagSideProject");
  ([u "main session"], [u "welcome"; u "keynote"; u "closing"], [],
   u "TagKeynote")].

Definition collected_tags `{!PyRuntime} (session : Embedded.JsonSession)
  : list str :=
  let track := str_lower (default [] (Embedded.js_track session)) in
  let title := str_lower (default [] (Embedded.js_title session)) in
  let abstract := str_lower (default [] (Embedded.js_abstract session)) in
  match List.map field_tag
          (List.filter (field_fires track title abstract) embedded_rules) with
  | [] => [u "TagSystem"]
  | t :: ts => t :: ts
  end.

Definition field_step (track title abstract : str) (tags : list str)
    (r : FieldRule) : list str :=
  append_if (field_fires track title abstract r) (field_tag r) tags.

(** The tags the aligned generator chooses for a session. *)
Definition aligned_tags `{!PyRuntime} (existing_tags : gmap str (list str))
    (session : Session) : list str :=
  match existing_tags !! code session with
  | Some tags => tags
  | None => Align.generate_fallback_tags session
  end.

(** The [Tags:] text the aligned generator writes for a tag list. *)
Definition tags_text (tags : list str) : str :=
  join (u ", ") (List.map Align.tag_constant tags).

(** A collected tag list, or the single default tag when it is empty. *)
Definition or_default (text : str) (tags : list str) : list str :=
  match tags with
  | [] => [default_tag text]
  | _ :: _ => tags
  end.

(** The generated text, with the choice of tags left open. *)
Definition render_session (choose : Session -> list str) (session : Session) : str :=
  Align.session_literal session (tags_text (choose session)).

Definition render_room (choose : Session -> list str)
    (rooms : gmap str (list Session)) (room : str) : str :=
  tab ++ tab ++ Align.quoted room ++ u ": {" ++ newline ++
  concat (List.map (render_session choose) (default [] (rooms !! room))) ++
  tab ++ tab ++ u "}," ++ newline.

Definition render_day (choose : Session -> list str)
    (data : gmap str (gmap str (list Session))) (day : str) : str :=
  let rooms := default ∅ (data !! day) in
  tab ++ Align.quoted day ++ u ": {" ++ newline ++
  concat (List.map (render_room choose rooms) (Align.sorted_keys rooms)) ++
  tab ++ u "}," ++ newline.

Definition render (choose : Session -> list str) (go_header : str)
    (data : gmap str (gmap str (list Session))) : str :=
  go_header ++
  concat (List.map (render_day choose data) (Align.sorted_keys data)) ++
  u "}" ++ newline.

(** Every session of the data has its code in the table. *)
Definition all_known (existing_tags : gmap str (list str))
    (data : gmap str (gmap str (list Session))) : Prop :=
  forall d rooms r sessions session,
    data !! d = Some rooms -> rooms !! r = Some sessions ->
    session ∈ sessions -> is_Some (existing_tags !! code session).

(** The slot the normalizer looks at. *)
Definition first_slot (submission : Submission) : option Slot :=
  match sub_slots submission with
  | Some (slot :: _) => Some slot
  | _ => None
  end.

(** The slot has a non-empty start, a non-empty end and a room id other
    than 0: what [not slot.get(...)] tests. *)
Definition complete (slot : Slot) : bool :=
  truthy (slot_start slot) && truthy (slot_end slot)
  && truthy_int (slot_room slot).

(** The timestamp is one [datetime.fromisoformat] accepts, once every "Z"
    is replaced by "+00:00". *)
Definition parses `{!PyRuntime} (timestamp : option str) : bool :=
  match timestamp with
  | Some s =>
    match datetime_fromisoformat (replace_char 90 (u "+00:00") s) with
    | Some _ => true
    | None => false
    end
  | None => false
  end.

(** The sessions of the accepted records of a batch, in input order. *)
Definition accepted `{!PyRuntime} (submissions : list Submission)
    (speakers : gmap str Speaker) (rooms tracks : gmap Z Info)
  : list Session :=
  flat_map (fun submission =>
              match Pretalx.process_session submission speakers rooms tracks with
              | Ok (Some session) => [session]
              | _ => []
              end) submissions.

(** The record makes the normalizer raise. *)
Definition raises `{!PyRuntime} (submission : Submission)
    (speakers : gmap str Speaker) (rooms tracks : gmap Z Info) : bool :=
  match Pretalx.process_session submission speakers rooms tracks with
  | Raise _ => true
  | Ok _ => false
  end.

(** What the escaping of [align_data.py] makes of one code point. *)
Definition escape_char (c : char) : str :=
  if c =? 92 then [92; 92]
  else if c =? 34 then [92; 34]
  else if c =? 10 then [92; 110]
  else if c =? 13 then [92; 114]
  else [c].

(** What [escape_go_string] makes of one code point. *)
Definition escape_go_char (c : char) : str :=
  if c =? 9 then [92; 116] else escape_char c.

(** What the escaping of [generate_go_data] makes of one code point. *)
Definition escape_quote_newline (c : char) : str :=
  if c =? 34 then [92; 34] else if c =? 10 then [92; 110] else [c].

(** Reading an escaped text back, as Go reads a string literal: a backslash
    and the code point after it stand for one code point. *)
Fixpoint unescape (s : str) : str :=
  match s with
  | [] => []
  | c :: rest =>
    if c =? 92
    then match rest with
         | [] => [c]
         | e :: rest' =>
           (if e =? 110 then 10
            else if e =? 114 then 13
            else if e =? 116 then 9
            else e) :: unescape rest'
         end
    else c :: unescape rest
  end.

(** A time of day as [datetime] objects hold it. *)
Definition valid_time (dt : datetime) : Prop :=
  dt_hour dt < 24 /\ dt_minute dt < 60.

(** Earlier in the day, to the minute. *)
Definition earlier (a b : datetime) : Prop :=
  dt_hour a < dt_hour b \/ (dt_hour a = dt_hour b /\ dt_minute a < dt_minute b).

(** The numbers below [n], ascending. *)
Definition below (n : nat) : list N := List.map N.of_nat (seq 0 n).

(** The answer is one to the question. *)
Definition answers_question (question_id : Z) (answer : Answer) : bool :=
  match answer_question answer with
  | Some q => (q =? question_id)%Z
  | None => false
  end.

(** No whitespace at either end. *)
Definition trimmed (s : str) : Prop :=
  match s with
  | [] => True
  | c :: _ => isspace c = false /\ isspace (List.last s c) = false
  end.

(** The tag is one of the display labels that have a Go constant. *)
Definition has_constant (tag : str) : bool :=
  bool_decide (is_Some (Align.tag_map !! tag)).

(** The text is the name of a declared Go constant. *)
Definition is_constant (name : str) : bool :=
  bool_decide (is_Some (Align.constant_map !! name)).

(** The label-to-constant table, as a list of items. *)
Definition tag_table : list (str * str) := [
  (TagAI, u "TagAI"); (TagLanguages, u "TagLanguages");
  (TagWeb3, u "TagWeb3"); (TagDatabase, u "TagDatabase");
  (TagSecurity, u "TagSecurity"); (TagHardware, u "TagHardware");
  (TagVehicle, u "TagVehicle"); (TagNetwork, u "TagNetwork");
  (TagDevOps, u "TagDevOps"); (TagSystem, u "TagSystem");
  (TagEnterprise, u "TagEnterprise"); (TagData, u "TagData");
  (TagGaming, u "TagGaming"); (TagAgriculture, u "TagAgriculture");
  (TagHealthcare, u "TagHealthcare"); (TagKeynote, u "TagKeynote");
  (TagPolicy, u "TagPolicy"); (TagGlobal, u "TagGlobal");
  (TagOpenData, u "TagOpenData"); (TagEducation, u "TagEducation");
  (TagSocial, u "TagSocial"); (TagSideProject, u "TagSideProject")].

(** The sessions of the data in the order the generators write them: days
    ascending, rooms ascending, sessions as the room lists them. *)
Definition sessions_in_order (data : gmap str (gmap str (list Session)))
  : list Session :=
  flat_map (fun d =>
              let rooms := default ∅ (data !! d) in
              flat_map (fun r => default [] (rooms !! r))
                       (Align.sorted_keys rooms))
           (Align.sorted_keys data).

(** All values of a map, flattened, in the order of [map_to_list]. *)
Definition flattened {V X} (F : V -> list X) (m : gmap str V) : list X :=
  map_to_list m ≫= (fun kv => F (snd kv)).

(** No empty day and no empty room. *)
Definition no_empty_bucket (agg : gmap str (gmap str (list Session))) : Prop :=
  forall d rooms, agg !! d = Some rooms ->
    rooms <> ∅ /\ forall r l, rooms !! r = Some l -> l <> [].

(** Ascending, without repetition. *)
Definition ascending (keys : list str) : Prop :=
  StronglySorted (fun a b => str_lt a b = true) keys.

(** The session's code is a key of the table. *)
Definition known (existing_tags : gmap str (list str)) (session : Session)
  : bool :=
  bool_decide (is_Some (existing_tags !! code session)).

(** The counters after a run of sessions. *)
Definition stats_after (existing_tags : gmap str (list str))
    (sessions : list Session) (stats : Align.Stats) : Align.Stats :=
  let unknown := List.filter (fun s => negb (known existing_tags s)) sessions in
  {| Align.total_sessions := Align.total_sessions stats + length sessions;
     Align.existing_tags_used :=
       Align.existing_tags_used stats
       + length (List.filter (known existing_tags) sessions);
     Align.new_tags_generated :=
       Align.new_tags_generated stats + length unknown;
     Align.missing_sessions :=
       Align.missing_sessions stats ++ List.map code unknown |}.

(** No backslash and no carriage return. *)
Definition plain (t : str) : bool :=
  forallb (fun c => negb (c =? 92) && negb (c =? 13)) t.

(** The session carries the tags the aligned generator chooses for it, and
    its texts are plain. *)
Definition written_alike `{!PyRuntime} (existing_tags : gmap str (list str))
    (session : Session) : bool :=
  bool_decide (tags session = aligned_tags existing_tags session)
  && plain (title session) && plain (track session)
  && plain (abstract session).

(** The text of the map literal, for a given way of writing a session. *)
Definition room_text (literal : Session -> str)
    (rooms : gmap str (list Session)) (room : str) : str :=
  tab ++ tab ++ Align.quoted room ++ u ": {" ++ newline ++
  concat (List.map literal (default [] (rooms !! room))) ++
  tab ++ tab ++ u "}," ++ newline.

Definition day_text (literal : Session -> str)
    (data : gmap str (gmap str (list Session))) (day : str) : str :=
  let rooms := default ∅ (data !! day) in
  tab ++ Align.quoted day ++ u ": {" ++ newline ++
  concat (List.map (room_text literal rooms) (Align.sorted_keys rooms)) ++
  tab ++ u "}," ++ newline.

Definition data_text (literal : Session -> str) (go_header : str)
    (data : gmap str (gmap str (list Session))) : str :=
  go_header ++
  concat (List.map (day_text literal data) (Align.sorted_keys data)) ++
  u "}" ++ newline.

(** The abstract holds one of the keywords the AI rule looks for in it. *)
Definition ai_abstract `{!PyRuntime} (abstract_ : option str) : bool :=
  any_in [u "ai"; u "machine learning"; u "neural"; u "model"]
         (str_lower (default [] abstract_)).

(** An answer whose value is a text. *)
Definition text_answer (qa : Z * str) : Answer :=
  {| answer_question := Some (fst qa); answer_answer := Some (snd qa) |}.

(** One line of a session literal, as the Go file has it: four tabs, the
    label, the value, a comma and a line feed. *)
Definition go_line (label value : str) : str :=
  tab ++ tab ++ tab ++ tab ++ label ++ value ++ u "," ++ newline.

(** The [Tags:] line of a session literal for a tag list: the Go constants
    of the tags, separated by a comma and a space, between braces. *)
Definition tags_line (tags : list str) : str :=
  go_line (u "Tags:       ")
    (u "[]string{" ++ join (u ", ") (List.map Align.tag_constant tags) ++ u "}").

(** The text of a session literal written with a tag list: the opening
    brace, the twelve lines of the session's own fields, the [Tags:] line
    and the closing brace. *)
Definition session_text (session : Session) (tags : list str) : str :=
  tab ++ tab ++ tab ++ u "{" ++ newline ++
  go_line (u "Code:       ") (dquote ++ code session ++ dquote) ++
  go_line (u "Title:      ") (dquote ++ Align.escape (title session) ++ dquote) ++
  go_line (u "Speakers:   ")
    (u "[]string{"
     ++ join (u ", ") (List.map (fun n => dquote ++ n ++ dquote) (speakers session))
     ++ u "}") ++
  go_line (u "Start:      ") (dquote ++ start session ++ dquote) ++
  go_line (u "End:        ") (dquote ++ end_ session ++ dquote) ++
  go_line (u "Track:      ") (dquote ++ Align.escape (track session) ++ dquote) ++
  go_line (u "Abstract:   ")
    (dquote ++ Align.escape (abstract session) ++ dquote) ++
  go_line (u "Language:   ") (dquote ++ language session ++ dquote) ++
  go_line (u "Difficulty: ") (dquote ++ difficulty session ++ dquote) ++
  go_line (u "Room:       ") (dquote ++ room session ++ dquote) ++
  go_line (u "Day:        ") (dquote ++ day session ++ dquote) ++
  go_line (u "URL:        ") (dquote ++ url session ++ dquote) ++
  tags_line tags ++
  tab ++ tab ++ tab ++ u "}," ++ newline.

(** ** Sample inputs *)

Module Sample.

Definition session (code_ track_ title_ abstract_ : str) : Session :=
  {| code := code_; title := title_; speakers := [];
     start := u "09:00"; end_ := u "09:30"; track := track_;
     abstract := abstract_; language := u "漢語"; difficulty := u "入門";
     room := u "RB105"; day := u "Aug.9"; tags := [];
     url := u "https://coscup.org/2025/sessions/" ++ code_ |}.

(** An identifier with "keynote" in it, and a text without any keyword. *)
Definition keynote_code : Session :=
  session (u "keynote-2025") (u "General") (u "Hello") [].

(** A plain identifier, and a text whose only hit is "keynote". *)
Definition keynote_title : Session :=
  session (u "ABC123") (u "General") (u "Keynote") [].

Definition json (title_ : str) : Embedded.JsonSession :=
  {| Embedded.js_track := None; Embedded.js_title := Some title_;
     Embedded.js_abstract := None |}.

Definition every_rule : str :=
  u "ai security python sql docker iot web3 tcp linux student policy chat".

Definition security_talk : str :=
  u "COSCUP Security Track: Practical Attack Techniques".

Definition complete_slot : Slot :=
  {| slot_start := Some (u "2025-08-09T10:00:00+08:00");
     slot_end := Some (u "2025-08-09T10:30:00+08:00");
     slot_room := Some 42%Z |}.

Definition roomless_slot : Slot :=
  {| slot_start := Some (u "2025-08-09T10:00:00+08:00");
     slot_end := Some (u "2025-08-09T10:30:00+08:00");
     slot_room := None |}.

Definition answer (question : Z) (text : str) : Answer :=
  {| answer_question := Some question; answer_answer := Some text |}.

Definition submission (slots : option (list Slot)) (answers : list Answer)
    (abstract_ : str) : Submission :=
  {| sub_code := u "ABC123"; sub_title := u "Practical Attack Techniques";
     sub_abstract := Some abstract_; sub_speakers := Some [u "SPK1"];
     sub_track := None; sub_slots := slots; sub_answers := Some answers |}.

(** A submission with one complete slot. *)
Definition scheduled (answers : list Answer) (abstract_ : str) : Submission :=
  submission (Some [complete_slot]) answers abstract_.

(** What the normalizer makes of [scheduled], the three fields that
    depend on the answers and the abstract left open. *)
Definition normalized (abstract_ language_ difficulty_ : str) : Session :=
  {| code := u "ABC123"; title := u "Practical Attack Techniques";
     speakers := [u "SPK1"]; start := u "10:00"; end_ := u "10:30";
     track := u "General"; abstract := abstract_; language := language_;
     difficulty := difficulty_; room := u "Room42"; day := u "Aug.9";
     tags := [TagSecurity];
     url := u "https://coscup.org/2025/sessions/ABC123" |}.

Definition long_abstract : str := repeat 97 250.

(** One day, one room, one session, and a table that knows its code. *)
Definition schedule : gmap str (gmap str (list Session)) :=
  {[ u "Aug.9" := {[ u "RB105" := [keynote_title] ]} ]}.

Definition known_tags : gmap str (list str) :=
  {[ u "ABC123" := [TagAI] ]}.

(** A slot with everything in place, and a start that is no timestamp. *)
Definition unparseable_slot : Slot :=
  {| slot_start := Some (u "tomorrow");
     slot_end := Some (u "2025-08-09T10:30:00+08:00");
     slot_room := Some 42%Z |}.

Definition nine_thirty : datetime :=
  {| dt_year := 2025; dt_month := 8; dt_day := 9;
     dt_hour := 9; dt_minute := 30; dt_second := 0 |}.

Definition ten_five : datetime :=
  {| dt_year := 2025; dt_month := 8; dt_day := 9;
     dt_hour := 10; dt_minute := 5; dt_second := 0 |}.

(** The schedule of one session that carries the tag the table has for
    it. *)
Definition tagged_schedule : gmap str (gmap str (list Session)) :=
  {[ u "Aug.9" :=
       {[ u "RB105" :=
            [ {| code := u "ABC123"; title := u "Keynote"; speakers := [];
                 start := u "09:00"; end_ := u "09:30"; track := u "General";
                 abstract := []; language := u "漢語"; difficulty := u "入門";
                 room := u "RB105"; day := u "Aug.9"; tags := [TagAI];
                 url := u "https://coscup.org/2025/sessions/ABC123" |} ] ]} ]}.

End Sample.

(** * Properties *)

(** ** Strings *)

Example utf8_cjk : u "入門" = [20837; 38272].
Proof. reflexivity. Qed.

Example utf8_emoji : u "🧠 AI" = [129504; 32; 65; 73].
Proof. reflexivity. Qed.

Example str_of_Z_12 : str_of_Z 12 = u "12".
Proof. reflexivity. Qed.

Example str_of_Z_0 : str_of_Z 0 = u "0".
Proof. reflexivity. Qed.

Example lower_example :
  AsciiRuntime.lower (u "COSCUP Security Track") = u "coscup security track".
Proof. reflexivity. Qed.

Example fromisoformat_example :
  AsciiRuntime.fromisoformat (u "2025-08-09T10:00:00+08:00")
  = Some {| dt_year := 2025; dt_month := 8; dt_day := 9;
            dt_hour := 10; dt_minute := 0; dt_second := 0 |}.
Proof. reflexivity. Qed.

Example fromisoformat_rejects :
  AsciiRuntime.fromisoformat (u "tomorrow") = None.
Proof. reflexivity. Qed.

Lemma startswith_spec k t : startswith k t = true <-> exists post, t = k ++ post.
Proof.
  revert t. induction k as [|a k IH]; intros [|b t]; simpl.
  - split; eauto.
  - split; eauto.
  - split; [discriminate | intros [post Hp]; discriminate].
  - rewrite andb_true_iff, N.eqb_eq, IH. split.
    + intros [-> [post ->]]. eauto.
    + intros [post Hp]. injection Hp as -> ->. eauto.
Qed.

Lemma contains_spec k t : contains k t = true <-> substring k t.
Proof.
  unfold substring. induction t as [|b t IH].
  - simpl. rewrite orb_false_r, startswith_spec. split.
    + intros [post Hp]. exists [], post. exact Hp.
    + intros [[|x pre] [post Hp]]; [eauto | discriminate].
  - cbn [contains]. rewrite orb_true_iff, startswith_spec, IH. split.
    + intros [[post Hp] | [pre [post Hp]]].
      * exists [], post. exact Hp.
      * exists (b :: pre), post. simpl. congruence.
    + intros [[|x pre] [post Hp]].
      * left. eauto.
      * right. injection Hp as -> Hp. eauto.
Qed.

Lemma any_in_spec keywords text :
  any_in keywords text = true <-> exists k, In k keywords /\ substring k text.
Proof.
  unfold any_in. rewrite existsb_exists.
  split; intros [k [Hin Hk]]; exists k; split; auto; now apply contains_spec.
Qed.

Lemma substring_app k pre t post : substring k t -> substring k (pre ++ t ++ post).
Proof.
  intros [a [b ->]]. exists (pre ++ a), (b ++ post).
  now rewrite <- !app_assoc.
Qed.

Lemma substring_refl k : substring k k.
Proof. exists [], []. now rewrite app_nil_r. Qed.

Lemma str_lt_irrefl a : str_lt a a = false.
Proof.
  induction a as [|x a IH]; simpl; [reflexivity|].
  rewrite N.ltb_irrefl, N.eqb_refl, IH. reflexivity.
Qed.

Lemma str_lt_asym a b : str_lt a b = true -> str_lt b a = false.
Proof.
  revert b. induction a as [|x a IH]; intros [|y b]; simpl; try easy.
  rewrite orb_true_iff, andb_true_iff, N.ltb_lt, N.eqb_eq.
  intros [Hlt | [-> Hlt]].
  - apply orb_false_iff. split; [apply N.ltb_ge; lia|].
    apply andb_false_iff. left. apply N.eqb_neq. lia.
  - rewrite N.ltb_irrefl, N.eqb_refl. simpl. auto.
Qed.

Lemma str_lt_trans a b c :
  str_lt a b = true -> str_lt b c = true -> str_lt a c = true.
Proof.
  revert b c. induction a as [|x a IH]; intros [|y b] [|z c]; simpl; try easy.
  rewrite !orb_true_iff, !andb_true_iff, !N.ltb_lt, !N.eqb_eq.
  intros [H1 | [-> H1]] [H2 | [-> H2]]; try (left; lia).
  right. split; eauto.
Qed.

Lemma str_lt_total a b : str_lt a b = false -> str_lt b a = false -> a = b.
Proof.
  revert b. induction a as [|x a IH]; intros [|y b]; simpl; try easy.
  rewrite !orb_false_iff, !andb_false_iff, !N.ltb_ge, !N.eqb_neq.
  intros [H1 H1'] [H2 H2'].
  assert (x = y) by lia. subst y. f_equal.
  apply IH; [destruct H1' | destruct H2']; congruence.
Qed.

Lemma str_le_trans a b c :
  str_le a b = true -> str_le b c = true -> str_le a c = true.
Proof.
  unfold str_le. rewrite !negb_true_iff. intros Hba Hcb.
  destruct (str_lt c a) eqn:Hca; [|reflexivity].
  destruct (str_lt a b) eqn:Hab.
  - rewrite (str_lt_trans _ _ _ Hca Hab) in Hcb. discriminate.
  - rewrite (str_lt_total _ _ Hab Hba) in Hca. congruence.
Qed.

(** ** The classifiers as rule tables *)

Lemma fold_rule_step text rules acc :
  fold_left (rule_step text) rules acc = acc ++ fired_tags rules text.
Proof.
  revert acc. induction rules as [|r rules IH]; intros acc.
  - unfold fired_tags. simpl. now rewrite app_nil_r.
  - simpl. rewrite IH. unfold rule_step, append_if, fired_tags. simpl.
    destruct (fires text r); simpl; [now rewrite <- app_assoc | reflexivity].
Qed.

Lemma default_branch text tags :
  match tags with
  | [] => if contains (u "keynote") text || contains (u "opening") text
          then tags ++ [TagKeynote] else tags ++ [TagSystem]
  | _ :: _ => tags
  end = or_default text tags.
Proof.
  destruct tags; simpl; [|reflexivity].
  unfold default_tag. now destruct (_ || _).
Qed.

Lemma default_if_empty (x : str) (tags : list str) :
  match tags with [] => tags ++ [x] | _ :: _ => tags end
  = match tags with [] => [x] | t :: ts => t :: ts end.
Proof. now destruct tags. Qed.

(** [classify_session_tags] is its rule table followed by the default. *)
Lemma classify_session_tags_table `{!PyRuntime} track title abstract :
  Pretalx.classify_session_tags track title abstract
  = or_default (classifier_text track title abstract)
      (fired_tags pretalx_rules (classifier_text track title abstract)).
Proof.
  rewrite <- (app_nil_l (fired_tags _ _)), <- fold_rule_step.
  rewrite <- default_branch. reflexivity.
Qed.

(** So is [generate_fallback_tags], with a table of its own. *)
Lemma generate_fallback_tags_table `{!PyRuntime} session :
  Align.generate_fallback_tags session
  = or_default (classifier_text (track session) (title session) (abstract session))
      (fired_tags fallback_rules
         (classifier_text (track session) (title session) (abstract session))).
Proof.
  rewrite <- (app_nil_l (fired_tags _ _)), <- fold_rule_step.
  rewrite <- default_branch. reflexivity.
Qed.

Lemma fold_field_step track title abstract rules acc :
  fold_left (field_step track title abstract) rules acc
  = acc ++ List.map field_tag
             (List.filter (field_fires track title abstract) rules).
Proof.
  revert acc. induction rules as [|r rules IH]; intros acc.
  - simpl. now rewrite app_nil_r.
  - simpl. rewrite IH. unfold field_step, append_if.
    destruct (field_fires track title abstract r); simpl;
      [now rewrite <- app_assoc | reflexivity].
Qed.

(** [generate_tags] is the first two of the collected tags. *)
Lemma generate_tags_table `{!PyRuntime} session :
  Embedded.generate_tags session = firstn 2 (collected_tags session).
Proof.
  unfold collected_tags.
  rewrite <- (app_nil_l (List.map field_tag _)), <- fold_field_step.
  rewrite <- default_if_empty.
  set (track := str_lower (default [] (Embedded.js_track session))).
  set (title := str_lower (default [] (Embedded.js_title session))).
  set (abstract := str_lower (default [] (Embedded.js_abstract session))).
  unfold fold_left, embedded_rules, field_step, field_fires, field_tag.
  change (any_in [] abstract) with false.
  rewrite !orb_false_r.
  reflexivity.
Qed.

Lemma or_default_nonempty text tags : or_default text tags <> [].
Proof. destruct tags; discriminate. Qed.

(** ** The last-resort default *)

(** C2, as amended: both keyword classifiers always return at least one tag;
    when no rule fires the result is the single default tag, which is
    [Keynote] when the lowercased track/title/abstract text contains
    "keynote" or "opening" and [System] otherwise. *)
Theorem classifier_default_on_text `{!PyRuntime} (track_ title_ abstract_ : str)
    (session : Session) :
  let text := classifier_text track_ title_ abstract_ in
  let text' :=
    classifier_text (track session) (title session) (abstract session) in
  (1 <= length (Pretalx.classify_session_tags track_ title_ abstract_))%nat /\
  (1 <= length (Align.generate_fallback_tags session))%nat /\
  (fired_tags pretalx_rules text = [] ->
   Pretalx.classify_session_tags track_ title_ abstract_
   = [if contains (u "keynote") text || contains (u "opening") text
      then TagKeynote else TagSystem]) /\
  (fired_tags fallback_rules text' = [] ->
   Align.generate_fallback_tags session
   = [if contains (u "keynote") text' || contains (u "opening") text'
      then TagKeynote else TagSystem]).
Proof.
  intros text text'.
  rewrite classify_session_tags_table, generate_fallback_tags_table.
  fold text text'. repeat split.
  - destruct (fired_tags pretalx_rules text); simpl; lia.
  - destruct (fired_tags fallback_rules text'); simpl; lia.
  - intros ->. reflexivity.
  - intros ->. reflexivity.
Qed.

(** C2 as stated fails: the default looks at the text, never at the
    identifier.  A session whose identifier contains "keynote" gets
    [System], and one whose identifier contains neither word gets
    [Keynote] because its title does. *)
Lemma default_ignores_identifier :
  (fired_tags fallback_rules
     (classifier_text (track Sample.keynote_code) (title Sample.keynote_code)
        (abstract Sample.keynote_code)) = [] /\
   contains (u "keynote") (str_lower (code Sample.keynote_code)) = true /\
   Align.generate_fallback_tags Sample.keynote_code = [TagSystem] /\
   Align.generate_fallback_tags Sample.keynote_code <> [TagKeynote]) /\
  (fired_tags fallback_rules
     (classifier_text (track Sample.keynote_title) (title Sample.keynote_title)
        (abstract Sample.keynote_title)) = [] /\
   contains (u "keynote") (str_lower (code Sample.keynote_title)) = false /\
   contains (u "opening") (str_lower (code Sample.keynote_title)) = false /\
   Align.generate_fallback_tags Sample.keynote_title = [TagKeynote] /\
   Align.generate_fallback_tags Sample.keynote_title <> [TagSystem]).
Proof. vm_compute. repeat split; discriminate. Qed.

(** ** Firing rules and their order *)

(** C5, as amended: a rule fires exactly when one of its keywords is a
    substring of the lowercased track/title/abstract text; when at least one
    rule fires the result is precisely the tags of the firing rules in
    declaration order, and when none fires it is the single default tag.
    The security example yields [Security] and not [Keynote]. *)
Theorem classifier_collects_firing_rules `{!PyRuntime}
    (track_ title_ abstract_ : str) :
  let text := classifier_text track_ title_ abstract_ in
  (forall r, In r pretalx_rules ->
     fires text r = true <-> exists k, In k (fst r) /\ substring k text) /\
  (fired_tags pretalx_rules text <> [] ->
   Pretalx.classify_session_tags track_ title_ abstract_
   = fired_tags pretalx_rules text) /\
  (fired_tags pretalx_rules text = [] ->
   Pretalx.classify_session_tags track_ title_ abstract_
   = [default_tag text]) /\
  (forall track' abstract',
     (track' = [] \/ track' = u "General") -> abstract' = [] ->
     let tags :=
       @Pretalx.classify_session_tags AsciiRuntime.runtime track'
         Sample.security_talk abstract' in
     In TagSecurity tags /\ ~ In TagKeynote tags).
Proof.
  intros text. rewrite classify_session_tags_table. fold text.
  split; [|split; [|split]].
  - intros r _. apply any_in_spec.
  - destruct (fired_tags pretalx_rules text); [congruence | reflexivity].
  - intros ->. reflexivity.
  - intros track' abstract' [-> | ->] ->; vm_compute;
      (split; [left; reflexivity | intros [H0 | []]; discriminate]).
Qed.

(** C5 as stated fails where no rule fires: on the empty record the result
    is [System] although no rule, the [System] rule included, has fired. *)
Lemma default_tag_is_not_a_firing_rule :
  fired_tags pretalx_rules (classifier_text [] [] []) = [] /\
  Pretalx.classify_session_tags [] [] [] = [TagSystem] /\
  Pretalx.classify_session_tags [] [] []
  <> fired_tags pretalx_rules (classifier_text [] [] []).
Proof. vm_compute. repeat split; discriminate. Qed.

(** ** The tag cap *)

(** C6, as amended: the cap is not a parameter.  [generate_tags] returns
    the first two of its collected tags, whatever the input, and
    [classify_session_tags] returns all the tags it collects; with every
    rule firing that is twelve of them. *)
Theorem tag_cap_is_hardcoded `{!PyRuntime} (session : Embedded.JsonSession)
    (track_ title_ abstract_ : str) :
  Embedded.generate_tags session = firstn 2 (collected_tags session) /\
  (length (Embedded.generate_tags session) <= 2)%nat /\
  (1 <= length (Embedded.generate_tags session))%nat /\
  Pretalx.classify_session_tags track_ title_ abstract_
  = or_default (classifier_text track_ title_ abstract_)
      (fired_tags pretalx_rules (classifier_text track_ title_ abstract_)) /\
  @Pretalx.classify_session_tags AsciiRuntime.runtime [] Sample.every_rule
     []
  = List.map snd pretalx_rules.
Proof.
  rewrite generate_tags_table, classify_session_tags_table.
  repeat split.
  - rewrite length_take. lia.
  - unfold collected_tags. destruct (List.map field_tag _); simpl; lia.
Qed.

(** C6 as stated fails: no cap can be passed to either function.  With
    three rules firing [generate_tags] keeps two, which is neither the
    first three nor the uncapped list; and the two paths are different
    classifiers, not one classifier under two caps. *)
Lemma tag_cap_is_not_configurable :
  collected_tags (Sample.json (u "AI Python Security"))
  = [u "TagAI"; u "TagLanguages"; u "TagSecurity"] /\
  Embedded.generate_tags (Sample.json (u "AI Python Security"))
  = [u "TagAI"; u "TagLanguages"] /\
  Embedded.generate_tags (Sample.json (u "AI Python Security"))
  <> firstn 3 (collected_tags (Sample.json (u "AI Python Security"))) /\
  Embedded.generate_tags (Sample.json (u "AI Python Security"))
  <> collected_tags (Sample.json (u "AI Python Security")) /\
  length (Embedded.generate_tags (Sample.json (u "data analytics python")))
  <> length (firstn 2 (Pretalx.classify_session_tags []
                         (u "data analytics python") [])).
Proof. vm_compute. repeat split; discriminate. Qed.

(** ** Sorting and grouping *)

Section Sorting.
Context {A : Type} (key : A -> str).

Lemma insert_by_perm x l : Pretalx.insert_by key x l ≡ₚ x :: l.
Proof.
  induction l as [|y l IH]; simpl; [reflexivity|].
  destruct (str_lt (key y) (key x)); [|reflexivity].
  rewrite IH. apply perm_swap.
Qed.

Lemma sort_by_perm l : Pretalx.sort_by key l ≡ₚ l.
Proof.
  induction l as [|x l IH]; simpl; [reflexivity|].
  now rewrite insert_by_perm, IH.
Qed.

Lemma insert_by_sorted x l :
  StronglySorted (key_le key) l -> StronglySorted (key_le key) (Pretalx.insert_by key x l).
Proof.
  induction 1 as [|y l Hs IH Hall]; simpl.
  - repeat constructor.
  - destruct (str_lt (key y) (key x)) eqn:Hlt.
    + constructor; [exact IH|].
      rewrite Forall_forall in *. intros z Hz.
      rewrite insert_by_perm in Hz.
      apply elem_of_cons in Hz as [-> | Hz].
      * unfold key_le, str_le. now rewrite (str_lt_asym _ _ Hlt).
      * now apply Hall.
    + assert (Hxy : key_le key x y) by (unfold key_le, str_le; now rewrite Hlt).
      constructor; [now constructor|].
      constructor; [exact Hxy|].
      rewrite Forall_forall in *. intros z Hz.
      eapply str_le_trans; [exact Hxy | now apply Hall].
Qed.

Lemma sort_by_sorted l : StronglySorted (key_le key) (Pretalx.sort_by key l).
Proof.
  induction l as [|x l IH]; simpl; [constructor | now apply insert_by_sorted].
Qed.

Lemma insert_by_stable (t : str) x l :
  filter (fun a => key a = t) (Pretalx.insert_by key x l)
  = filter (fun a => key a = t) (x :: l).
Proof.
  induction l as [|y l IH]; simpl; [reflexivity|].
  destruct (str_lt (key y) (key x)) eqn:Hlt; [|reflexivity].
  rewrite !filter_cons in *. rewrite IH.
  destruct (decide (key y = t)) as [Hy|Hy], (decide (key x = t)) as [Hx|Hx];
    try reflexivity.
  rewrite Hy, Hx, str_lt_irrefl in Hlt. discriminate.
Qed.

Lemma sort_by_stable (t : str) l :
  filter (fun a => key a = t) (Pretalx.sort_by key l)
  = filter (fun a => key a = t) l.
Proof.
  induction l as [|x l IH]; simpl; [reflexivity|].
  rewrite insert_by_stable, !filter_cons, IH. reflexivity.
Qed.
End Sorting.

Lemma bucket_empty d r : bucket ∅ d r = [].
Proof. unfold bucket. now rewrite lookup_empty. Qed.

Lemma bucket_insert_session agg s d r :
  bucket (Pretalx.insert_session agg s) d r
  = bucket agg d r ++ (if decide (in_bucket d r s) then [s] else []).
Proof.
  unfold Pretalx.insert_session, bucket, in_bucket.
  destruct (decide (day s = d)) as [<-|Hd].
  - rewrite lookup_insert_eq. simpl.
    destruct (decide (room s = r)) as [<-|Hr].
    + rewrite lookup_insert_eq. simpl.
      rewrite decide_True by done.
      destruct (agg !! day s) as [by_room|]; simpl; [|now rewrite lookup_empty].
      now destruct (by_room !! room s).
    + rewrite lookup_insert_ne by done.
      rewrite decide_False by tauto. rewrite app_nil_r.
      destruct (agg !! day s) as [by_room|]; simpl; [done|now rewrite lookup_empty].
  - rewrite lookup_insert_ne by done.
    rewrite decide_False by tauto. now rewrite app_nil_r.
Qed.

Lemma bucket_fold ss agg d r :
  bucket (fold_left Pretalx.insert_session ss agg) d r
  = bucket agg d r ++ filter (in_bucket d r) ss.
Proof.
  revert agg. induction ss as [|s ss IH]; intros agg; simpl.
  - now rewrite app_nil_r.
  - rewrite IH, bucket_insert_session, filter_cons, <- app_assoc.
    now destruct (decide (in_bucket d r s)).
Qed.

Lemma bucket_sort_buckets agg d r :
  bucket (Pretalx.sort_buckets agg) d r = Pretalx.sort_by start (bucket agg d r).
Proof.
  unfold bucket, Pretalx.sort_buckets. rewrite lookup_fmap.
  destruct (agg !! d) as [by_room|]; simpl; [|reflexivity].
  rewrite lookup_fmap. now destruct (by_room !! r).
Qed.

Lemma bucket_aggregate ss d r :
  bucket (Pretalx.aggregate ss) d r = Pretalx.sort_by start (filter (in_bucket d r) ss).
Proof.
  unfold Pretalx.aggregate.
  now rewrite bucket_sort_buckets, bucket_fold, bucket_empty.
Qed.

(** C3: in every day/room bucket of the aggregate of a batch, the sessions
    are sorted by [start], non-decreasing; the sessions with one and the
    same [start] are in the order they had in the batch; and the bucket
    holds exactly the sessions of the batch with that day and room. *)
Theorem aggregate_sorted_stable (sessions : list Session) (d r : str) :
  StronglySorted start_le (bucket (Pretalx.aggregate sessions) d r) /\
  (forall t : str,
     filter (fun s => start s = t) (bucket (Pretalx.aggregate sessions) d r)
     = filter (fun s => start s = t) (filter (in_bucket d r) sessions)) /\
  bucket (Pretalx.aggregate sessions) d r ≡ₚ filter (in_bucket d r) sessions.
Proof.
  rewrite bucket_aggregate. split; [|split].
  - apply (sort_by_sorted start).
  - intros t. apply sort_by_stable.
  - apply sort_by_perm.
Qed.

Lemma run_loop_normalize `{!PyRuntime} subs speakers rooms tracks agg :
  Pretalx.run_loop subs speakers rooms tracks agg
  = ss ← Pretalx.normalize_all subs speakers rooms tracks;
    Ok (fold_left Pretalx.insert_session ss agg).
Proof.
  revert agg. induction subs as [|sub subs IH]; intros agg; simpl; [reflexivity|].
  destruct (Pretalx.process_session sub speakers rooms tracks) as [[s|]|e]; simpl.
  - rewrite IH. now destruct (Pretalx.normalize_all subs speakers rooms tracks).
  - rewrite IH. now destruct (Pretalx.normalize_all subs speakers rooms tracks).
  - reflexivity.
Qed.

Lemma run_aggregate `{!PyRuntime} subs speakers rooms tracks :
  Pretalx.run subs speakers rooms tracks
  = ss ← Pretalx.normalize_all subs speakers rooms tracks; Ok (Pretalx.aggregate ss).
Proof.
  unfold Pretalx.run. rewrite run_loop_normalize.
  now destruct (Pretalx.normalize_all subs speakers rooms tracks).
Qed.

(** ** The normalizer *)

Lemma or_else_or_opt o1 o2 d : or_else (or_opt o1 o2) d = first_truthy o1 o2 d.
Proof. unfold or_opt, or_else, first_truthy, truthy. now destruct o1 as [[|c n]|]. Qed.

Lemma first_truthy_nonempty o1 o2 d : d <> [] -> first_truthy o1 o2 d <> [].
Proof.
  intros Hd. unfold first_truthy.
  destruct o1 as [[|c n]|]; try discriminate;
    destruct o2 as [[|c' n']|]; try discriminate; exact Hd.
Qed.

Lemma or_else_default o : or_else o [] = default [] o.
Proof. now destruct o as [[|c n]|]. Qed.

(** A dict literal without repeated keys is read like its list of items. *)
Lemma lookup_table_assoc (table : list (str * str)) (k : str) :
  (list_to_map table : gmap str str) !! k = assoc k table.
Proof.
  induction table as [|[k' v] table IH]; simpl; [apply lookup_empty|].
  rewrite lookup_insert. rewrite IH.
  destruct (decide (k' = k)) as [->|Hne].
  - now rewrite decide_True.
  - now rewrite decide_False by congruence.
Qed.

Lemma map_through_table (table : list (str * str)) (dflt : str) (answer : option str) :
  default (or_else answer dflt) ((list_to_map table : gmap str str) !! or_else answer dflt)
  = match answer with
    | Some (c :: v) => translate table dflt answer
    | _ => default dflt (assoc dflt table)
    end.
Proof. rewrite lookup_table_assoc. now destruct answer as [[|c v]|]. Qed.

Lemma Ok_Some_inj {A} (a b : A) : Ok (Some a) = Ok (Some b) -> a = b.
Proof. now intros [= ->]. Qed.

Lemma track_info_of_eq (tracks : gmap Z Info) (track_id : option Z) :
  (if truthy_int track_id
   then default no_info (track_id ≫= (tracks !!.))
   else no_info) = track_info_of tracks track_id.
Proof.
  destruct track_id as [t|]; simpl; [|reflexivity].
  unfold truthy_int. now destruct (t =? 0)%Z.
Qed.

Lemma get_answer_value_first `{!PyRuntime} answers question_id :
  Pretalx.get_answer_value answers question_id
  = strip <$> first_answer answers question_id.
Proof.
  unfold first_answer.
  induction answers as [|a rest IH]; simpl; [reflexivity|].
  destruct (match answer_question a with Some q => _ | None => _ end);
    [reflexivity | exact IH].
Qed.

Section Normalizer.
Context `{!PyRuntime}.

(** The shape of every session the normalizer emits. *)
Lemma process_session_accepted sub speakers rooms tracks s :
  Pretalx.process_session sub speakers rooms tracks = Ok (Some s) ->
  exists slot rest room_id start_time end_time day_,
    sub_slots sub = Some (slot :: rest) /\
    slot_room slot = Some room_id /\
    Pretalx.parse_slot_time slot = Ok (start_time, end_time, day_) /\
    s = {|
      code := sub_code sub;
      title := sub_title sub;
      speakers :=
        List.map (fun speaker_code =>
                    default speaker_code (speakers !! speaker_code ≫= speaker_name))
                 (default [] (sub_speakers sub));
      start := start_time;
      end_ := end_time;
      track :=
        first_truthy (get_name (track_info_of tracks (sub_track sub)) (u "zh-tw"))
          (get_name (track_info_of tracks (sub_track sub)) (u "en")) (u "General");
      abstract := Pretalx.truncate_abstract (default [] (sub_abstract sub));
      language :=
        translate language_table (u "漢語")
          (Pretalx.get_answer_value (default [] (sub_answers sub)) 57);
      difficulty :=
        translate difficulty_table (u "入門")
          (Pretalx.get_answer_value (default [] (sub_answers sub)) 59);
      room :=
        first_truthy (get_name (default no_info (rooms !! room_id)) (u "en"))
          (get_name (default no_info (rooms !! room_id)) (u "zh-tw"))
          (u "Room" ++ str_of_Z room_id);
      day := day_;
      tags :=
        Pretalx.classify_session_tags
          (first_truthy (get_name (track_info_of tracks (sub_track sub)) (u "zh-tw"))
             (get_name (track_info_of tracks (sub_track sub)) (u "en")) (u "General"))
          (sub_title sub) (default [] (sub_abstract sub));
      url := u "https://coscup.org/2025/sessions/" ++ sub_code sub
    |}.
Proof.
  unfold Pretalx.process_session.
  destruct (sub_slots sub) as [[|slot rest]|]; try discriminate.
  destruct (negb (truthy (slot_start slot)) || negb (truthy (slot_end slot))
            || negb (truthy_int (slot_room slot))); try discriminate.
  destruct (Pretalx.parse_slot_time slot) as [[[st en] d]|e] eqn:Hparse;
    try discriminate.
  destruct (slot_room slot) as [room_id|] eqn:Hroom; try discriminate.
  cbn [mbind result_bind getitem]. cbv zeta.
  intros Heq. apply Ok_Some_inj in Heq. subst s.
  exists slot, rest, room_id, st, en, d.
  split; [reflexivity|]. split; [exact Hroom|]. split; [exact Hparse|].
  rewrite track_info_of_eq, !or_else_or_opt, !or_else_default.
  unfold Pretalx.language_map, Pretalx.difficulty_map.
  rewrite !map_through_table. fold language_table difficulty_table.
  f_equal.
  - now destruct (Pretalx.get_answer_value _ 57) as [[|c v]|].
  - now destruct (Pretalx.get_answer_value _ 59) as [[|c v]|].
Qed.

(** Whether a record is accepted does not depend on its answers. *)
Lemma process_session_answers (sub : Submission)
    (answers' : option (list Answer))
    (speakers : gmap str Speaker) (rooms tracks : gmap Z Info) (s : Session) :
  Pretalx.process_session sub speakers rooms tracks = Ok (Some s) ->
  exists s',
    Pretalx.process_session (with_answers sub answers') speakers rooms tracks
    = Ok (Some s').
Proof.
  unfold Pretalx.process_session. cbn [with_answers sub_slots].
  destruct (sub_slots sub) as [[|slot rest]|]; try discriminate.
  destruct (negb (truthy (slot_start slot)) || negb (truthy (slot_end slot))
            || negb (truthy_int (slot_room slot))); try discriminate.
  destruct (Pretalx.parse_slot_time slot) as [[[st en] d]|e]; try discriminate.
  destruct (slot_room slot) as [room_id|]; try discriminate.
  intros _. eexists. reflexivity.
Qed.

(** A record without a slot list, or with a first slot that lacks one of
    its three entries, is skipped. *)
Lemma process_session_skips (sub : Submission)
    (speakers : gmap str Speaker) (rooms tracks : gmap Z Info) :
  lacks_slot_or_room sub ->
  Pretalx.process_session sub speakers rooms tracks = Ok None.
Proof.
  unfold lacks_slot_or_room, Pretalx.process_session.
  destruct (sub_slots sub) as [[|slot rest]|]; try reflexivity.
  intros [-> | [-> | ->]]; simpl; rewrite ?orb_true_r; reflexivity.
Qed.
End Normalizer.

(** C4: a raw record that has no slot list, an empty one, or a first slot
    without a start, an end or a room is skipped: the normalizer returns
    [None] and raises nothing. *)
Theorem skip_without_slot_or_room `{!PyRuntime} (sub : Submission)
    (speakers : gmap str Speaker) (rooms tracks : gmap Z Info) :
  lacks_slot_or_room sub ->
  Pretalx.process_session sub speakers rooms tracks = Ok None.
Proof. apply process_session_skips. Qed.

Lemma skip_without_slot_or_room_witness :
  lacks_slot_or_room (Sample.submission (Some [Sample.roomless_slot]) [] []) /\
  Pretalx.process_session
    (Sample.submission (Some [Sample.roomless_slot]) [] []) ∅ ∅ ∅ = Ok None.
Proof.
  assert (Hlacks :
    lacks_slot_or_room (Sample.submission (Some [Sample.roomless_slot]) [] []))
    by (right; right; reflexivity).
  split; [exact Hlacks|].
  exact (@skip_without_slot_or_room AsciiRuntime.runtime _ ∅ ∅ ∅ Hlacks).
Defined.

(** C10: only the first slot is inspected.  Replacing the slots after the
    first by any others leaves the outcome as it is, and a first slot
    without a start, an end or a room makes the record a skip whatever
    follows it. *)
Theorem only_first_slot_inspected `{!PyRuntime} (sub : Submission)
    (slot : Slot) (rest rest' : list Slot)
    (speakers : gmap str Speaker) (rooms tracks : gmap Z Info) :
  Pretalx.process_session (with_slots sub (Some (slot :: rest)))
    speakers rooms tracks
  = Pretalx.process_session (with_slots sub (Some (slot :: rest')))
      speakers rooms tracks
  /\ (slot_start slot = None \/ slot_end slot = None \/ slot_room slot = None ->
      Pretalx.process_session (with_slots sub (Some (slot :: rest)))
        speakers rooms tracks = Ok None).
Proof.
  split; [reflexivity|].
  intros Hlacks. apply process_session_skips. exact Hlacks.
Qed.

Lemma only_first_slot_inspected_witness :
  slot_room Sample.roomless_slot = None /\
  Pretalx.process_session
    (with_slots (Sample.scheduled [] [])
       (Some [Sample.roomless_slot; Sample.complete_slot])) ∅ ∅ ∅ = Ok None.
Proof.
  split; [reflexivity|].
  apply (proj2 (@only_first_slot_inspected AsciiRuntime.runtime
                  (Sample.scheduled [] []) Sample.roomless_slot
                  [Sample.complete_slot] [] ∅ ∅ ∅)).
  right. right. reflexivity.
Defined.

(** C9: the emitted abstract is the raw abstract when that has at most 200
    code points, and otherwise its first 200 code points followed by
    "..."; it never has more than 203 code points. *)
Theorem abstract_truncated `{!PyRuntime} (sub : Submission) (raw : str)
    (speakers : gmap str Speaker) (rooms tracks : gmap Z Info) (s : Session) :
  sub_abstract sub = Some raw ->
  Pretalx.process_session sub speakers rooms tracks = Ok (Some s) ->
  ((length raw <= 200)%nat -> abstract s = raw) /\
  ((200 < length raw)%nat ->
     abstract s = firstn 200 raw ++ u "..." /\ length (abstract s) = 203%nat) /\
  (length (abstract s) <= 203)%nat.
Proof.
  intros Hraw Hs.
  destruct (process_session_accepted _ _ _ _ _ Hs)
    as (slot & rest & room_id & st & en & d & _ & _ & _ & ->).
  clear Hs. cbn [abstract]. rewrite Hraw.
  change (default [] (Some raw)) with raw.
  unfold Pretalx.truncate_abstract.
  destruct (Nat.ltb_spec 200 (length raw)) as [Hlong | Hshort].
  - assert (Hlen : length (firstn 200 raw ++ u "...") = 203%nat).
    { rewrite length_app, length_take. change (length (u "...")) with 3%nat. lia. }
    split; [lia|]. split. 2:{ rewrite Hlen; lia. }
    intros _. split; [reflexivity | exact Hlen].
  - split; [reflexivity|]. split; lia.
Qed.

Lemma abstract_truncated_witness :
  sub_abstract (Sample.scheduled [] Sample.long_abstract)
  = Some Sample.long_abstract /\
  Pretalx.process_session (Sample.scheduled [] Sample.long_abstract) ∅ ∅ ∅
  = Ok (Some (Sample.normalized (firstn 200 Sample.long_abstract ++ u "...") (u "漢語") (u "入門"))) /\
  (length (abstract
             (Sample.normalized (firstn 200 Sample.long_abstract ++ u "...") (u "漢語") (u "入門")))
   <= 203)%nat.
Proof.
  assert (Hraw : sub_abstract (Sample.scheduled [] Sample.long_abstract)
                 = Some Sample.long_abstract) by reflexivity.
  assert (Hs : Pretalx.process_session
                 (Sample.scheduled [] Sample.long_abstract) ∅ ∅ ∅
               = Ok (Some (Sample.normalized (firstn 200 Sample.long_abstract ++ u "...")
                             (u "漢語") (u "入門"))))
    by (vm_compute; reflexivity).
  split; [exact Hraw|]. split; [exact Hs|].
  exact (proj2 (proj2 (@abstract_truncated AsciiRuntime.runtime _ _ ∅ ∅ ∅ _
                         Hraw Hs))).
Defined.

(** ** Vocabulary tables *)

(** C7, as amended: the normalizer takes the first answer to the difficulty
    question (59) and to the language question (57), trimmed of surrounding
    whitespace.  A trimmed value of the table is replaced by its
    translation, so "Beginner" gives "入門"; a non-empty trimmed value
    outside the table is emitted as it is; when the question has no answer
    or the trimmed text is empty the default is emitted, "入門" or "漢語".
    Answers whose values are texts, whatever the texts, never make an
    accepted record fail. *)
Theorem vocabulary_maps_trimmed_answer `{!PyRuntime} (sub : Submission)
    (speakers : gmap str Speaker) (rooms tracks : gmap Z Info) (s : Session) :
  Pretalx.process_session sub speakers rooms tracks = Ok (Some s) ->
  let answers := default [] (sub_answers sub) in
  let given q := strip <$> first_answer answers q in
  difficulty s = translate difficulty_table (u "入門") (given 59%Z) /\
  language s = translate language_table (u "漢語") (given 57%Z) /\
  (forall c v, given 59%Z = Some (c :: v) ->
     assoc (c :: v) difficulty_table = None -> difficulty s = c :: v) /\
  (forall c v, given 57%Z = Some (c :: v) ->
     assoc (c :: v) language_table = None -> language s = c :: v) /\
  (given 59%Z = Some (u "Beginner") -> difficulty s = u "入門") /\
  (forall texts : list (Z * str), exists s',
     Pretalx.process_session
       (with_answers sub (Some (List.map text_answer texts)))
       speakers rooms tracks
     = Ok (Some s')).
Proof.
  intros Hs answers given.
  pose proof (process_session_answers sub) as Hany.
  destruct (process_session_accepted _ _ _ _ _ Hs)
    as (slot & rest & room_id & st & en & d & _ & _ & _ & Heq).
  assert (Hd : difficulty s = translate difficulty_table (u "入門") (given 59%Z)).
  { subst s. cbn [difficulty]. now rewrite get_answer_value_first. }
  assert (Hl : language s = translate language_table (u "漢語") (given 57%Z)).
  { subst s. cbn [language]. now rewrite get_answer_value_first. }
  clear Heq. rewrite Hd, Hl.
  split; [reflexivity|]. split; [reflexivity|].
  split; [|split; [|split]].
  - intros c v -> Hout. unfold translate. now rewrite Hout.
  - intros c v -> Hout. unfold translate. now rewrite Hout.
  - intros ->. reflexivity.
  - intros texts. exact (Hany _ speakers rooms tracks s Hs).
Qed.

Lemma vocabulary_maps_trimmed_answer_witness :
  Pretalx.process_session
    (Sample.scheduled [Sample.answer 59 (u "Beginner");
                       Sample.answer 57 (u "Taiwanese")] []) ∅ ∅ ∅
  = Ok (Some (Sample.normalized [] (u "Taiwanese") (u "入門"))) /\
  difficulty (Sample.normalized [] (u "Taiwanese") (u "入門"))
  = translate difficulty_table (u "入門") (Some (u "Beginner")).
Proof.
  assert (Hs : Pretalx.process_session
                 (Sample.scheduled [Sample.answer 59 (u "Beginner");
                                    Sample.answer 57 (u "Taiwanese")] []) ∅ ∅ ∅
               = Ok (Some (Sample.normalized [] (u "Taiwanese") (u "入門"))))
    by (vm_compute; reflexivity).
  split; [exact Hs|].
  exact (proj1 (@vocabulary_maps_trimmed_answer AsciiRuntime.runtime _ ∅ ∅ ∅ _ Hs)).
Defined.

(** C7 as stated fails: the value is trimmed before it is looked up and
    emitted, and an empty value is replaced by the default.  The answer
    " Expert", which is not in the table, is emitted as "Expert"; the empty
    language answer, not in the table either, is emitted as "漢語". *)
Lemma untrimmed_answer_is_not_verbatim :
  exists s,
    Pretalx.process_session
      (Sample.scheduled [Sample.answer 59 (u " Expert"); Sample.answer 57 []] [])
      ∅ ∅ ∅ = Ok (Some s) /\
    assoc (u " Expert") difficulty_table = None /\ difficulty s = u "Expert" /\
    difficulty s <> u " Expert" /\
    assoc [] language_table = None /\ language s = u "漢語" /\ language s <> [].
Proof. eexists. vm_compute. repeat split; discriminate. Qed.

(** ** Room and track names *)

(** C8, as amended: the room name of an accepted record is the English name
    of the room, else its zh-tw name, else "Room" followed by the room id;
    the track name is the zh-tw name of the track, else its English name,
    else "General".  Both are non-empty. *)
Theorem names_resolved_nonempty `{!PyRuntime} (sub : Submission)
    (speakers : gmap str Speaker) (rooms tracks : gmap Z Info) (s : Session) :
  Pretalx.process_session sub speakers rooms tracks = Ok (Some s) ->
  room s <> [] /\ track s <> [] /\
  exists slot rest room_id,
    sub_slots sub = Some (slot :: rest) /\ slot_room slot = Some room_id /\
    let room_info := default no_info (rooms !! room_id) in
    let track_info := track_info_of tracks (sub_track sub) in
    room s = first_truthy (get_name room_info (u "en"))
               (get_name room_info (u "zh-tw")) (u "Room" ++ str_of_Z room_id) /\
    track s = first_truthy (get_name track_info (u "zh-tw"))
                (get_name track_info (u "en")) (u "General").
Proof.
  intros Hs.
  destruct (process_session_accepted _ _ _ _ _ Hs)
    as (slot & rest & room_id & st & en & d & Hslots & Hroom & _ & ->).
  cbn [room track].
  split; [apply first_truthy_nonempty; discriminate|].
  split; [apply first_truthy_nonempty; discriminate|].
  exists slot, rest, room_id. auto.
Qed.

Lemma names_resolved_nonempty_witness :
  Pretalx.process_session (Sample.scheduled [] []) ∅ ∅ ∅
  = Ok (Some (Sample.normalized [] (u "漢語") (u "入門"))) /\
  room (Sample.normalized [] (u "漢語") (u "入門")) <> [].
Proof.
  assert (Hs : Pretalx.process_session (Sample.scheduled [] []) ∅ ∅ ∅
               = Ok (Some (Sample.normalized [] (u "漢語") (u "入門"))))
    by (vm_compute; reflexivity).
  split; [exact Hs|].
  exact (proj1 (@names_resolved_nonempty AsciiRuntime.runtime _ ∅ ∅ ∅ _ Hs)).
Defined.

(** C8 as stated fails for the track: without a track name the placeholder
    is "General", not "Room" followed by an id. *)
Lemma track_placeholder_is_general :
  exists s,
    Pretalx.process_session (Sample.scheduled [] []) ∅ ∅ ∅ = Ok (Some s) /\
    room s = u "Room42" /\ track s = u "General" /\
    startswith (u "Room") (track s) = false.
Proof. eexists. vm_compute. repeat split; discriminate. Qed.

(** ** The aligned generator *)

Lemma substring_concat {A} (f : A -> str) (x : A) (l : list A) :
  x ∈ l -> substring (f x) (concat (List.map f l)).
Proof.
  induction 1 as [x l | x y l _ IH]; simpl.
  - exists [], (concat (List.map f l)). reflexivity.
  - destruct IH as (pre & post & ->). exists (f y ++ pre), post.
    now rewrite <- app_assoc.
Qed.

Lemma substring_trans a b c : substring a b -> substring b c -> substring a c.
Proof.
  intros (p1 & q1 & ->) (p2 & q2 & ->).
  exists (p2 ++ p1), (q1 ++ q2). now rewrite <- !app_assoc.
Qed.

Lemma substring_app_l k a b : substring k a -> substring k (a ++ b).
Proof.
  intros (pre & post & ->). exists pre, (post ++ b). now rewrite <- !app_assoc.
Qed.

Lemma substring_app_r k a b : substring k b -> substring k (a ++ b).
Proof.
  intros (pre & post & ->). exists (a ++ pre), post. now rewrite <- !app_assoc.
Qed.

Lemma sorted_keys_elem {V} (m : gmap str V) (k : str) (v : V) :
  m !! k = Some v -> k ∈ Align.sorted_keys m.
Proof.
  intros Hk. unfold Align.sorted_keys. rewrite sort_by_perm.
  apply list_elem_of_In, in_map_iff. exists (k, v). split; [reflexivity|].
  apply list_elem_of_In, elem_of_map_to_list. exact Hk.
Qed.

Section Aligned.
Context `{!PyRuntime}.

Lemma emit_session_fst ex g st s :
  fst (Align.emit_session ex (g, st) s)
  = g ++ render_session (aligned_tags ex) s.
Proof.
  unfold Align.emit_session, Align.select_tags, render_session, aligned_tags,
    tags_text.
  now destruct (ex !! code s).
Qed.

Lemma fold_emit_session_fst ex ss g st :
  fst (fold_left (Align.emit_session ex) ss (g, st))
  = g ++ concat (List.map (render_session (aligned_tags ex)) ss).
Proof.
  revert g st. induction ss as [|s ss IH]; intros g st; cbn [fold_left List.map concat].
  - simpl. now rewrite app_nil_r.
  - destruct (Align.emit_session ex (g, st) s) as [g' st'] eqn:He.
    rewrite IH. pose proof (emit_session_fst ex g st s) as Hf.
    pose proof (eq_trans (eq_sym (f_equal fst He)) Hf) as Hg;
    cbn [fst] in Hg; subst g'. now rewrite <- app_assoc.
Qed.

Lemma emit_room_fst ex rooms g st r :
  fst (Align.emit_room ex rooms (g, st) r)
  = g ++ render_room (aligned_tags ex) rooms r.
Proof.
  unfold Align.emit_room, render_room.
  destruct (fold_left _ _ _) as [g' st'] eqn:He.
  pose proof (fold_emit_session_fst ex (default [] (rooms !! r))
                (g ++ tab ++ tab ++ Align.quoted r ++ u ": {" ++ newline) st) as Hf.
  pose proof (eq_trans (eq_sym (f_equal fst He)) Hf) as Hg;
    cbn [fst] in Hg; subst g'. cbn [fst].
  now rewrite <- !app_assoc.
Qed.

Lemma fold_emit_room_fst ex rooms rs g st :
  fst (fold_left (Align.emit_room ex rooms) rs (g, st))
  = g ++ concat (List.map (render_room (aligned_tags ex) rooms) rs).
Proof.
  revert g st. induction rs as [|r rs IH]; intros g st; cbn [fold_left List.map concat].
  - simpl. now rewrite app_nil_r.
  - destruct (Align.emit_room ex rooms (g, st) r) as [g' st'] eqn:He.
    rewrite IH. pose proof (emit_room_fst ex rooms g st r) as Hf.
    pose proof (eq_trans (eq_sym (f_equal fst He)) Hf) as Hg;
    cbn [fst] in Hg; subst g'. now rewrite <- app_assoc.
Qed.

Lemma emit_day_fst ex data g st d :
  fst (Align.emit_day ex data (g, st) d)
  = g ++ render_day (aligned_tags ex) data d.
Proof.
  unfold Align.emit_day, render_day.
  destruct (fold_left _ _ _) as [g' st'] eqn:He.
  pose proof (fold_emit_room_fst ex (default ∅ (data !! d))
                (Align.sorted_keys (default ∅ (data !! d)))
                (g ++ tab ++ Align.quoted d ++ u ": {" ++ newline) st) as Hf.
  pose proof (eq_trans (eq_sym (f_equal fst He)) Hf) as Hg;
    cbn [fst] in Hg; subst g'. cbn [fst].
  now rewrite <- !app_assoc.
Qed.

Lemma fold_emit_day_fst ex data ds g st :
  fst (fold_left (Align.emit_day ex data) ds (g, st))
  = g ++ concat (List.map (render_day (aligned_tags ex) data) ds).
Proof.
  revert g st. induction ds as [|d ds IH]; intros g st; cbn [fold_left List.map concat].
  - simpl. now rewrite app_nil_r.
  - destruct (Align.emit_day ex data (g, st) d) as [g' st'] eqn:He.
    rewrite IH. pose proof (emit_day_fst ex data g st d) as Hf.
    pose proof (eq_trans (eq_sym (f_equal fst He)) Hf) as Hg;
    cbn [fst] in Hg; subst g'. now rewrite <- app_assoc.
Qed.

Lemma generate_aligned_go_data_render header data ex :
  fst (Align.generate_aligned_go_data header data ex)
  = render (aligned_tags ex) header data.
Proof.
  unfold Align.generate_aligned_go_data, render.
  destruct (fold_left _ _ _) as [g' st'] eqn:He.
  pose proof (fold_emit_day_fst ex data (Align.sorted_keys data) header
                Align.stats0) as Hf.
  pose proof (eq_trans (eq_sym (f_equal fst He)) Hf) as Hg;
    cbn [fst] in Hg; subst g'. cbn [fst].
  now rewrite <- !app_assoc.
Qed.

Lemma render_contains choose header data d rooms r sessions session :
  data !! d = Some rooms -> rooms !! r = Some sessions ->
  session ∈ sessions ->
  substring (render_session choose session) (render choose header data).
Proof.
  intros Hd Hr Hs.
  apply substring_app_r, substring_app_l.
  eapply substring_trans;
    [|apply (substring_concat (render_day choose data) d),
        (sorted_keys_elem _ _ _ Hd)].
  unfold render_day. rewrite Hd. cbn [default from_option id].
  do 4 apply substring_app_r. apply substring_app_l.
  eapply substring_trans;
    [|apply (substring_concat (render_room choose rooms) r),
        (sorted_keys_elem _ _ _ Hr)].
  unfold render_room. rewrite Hr. cbn [default from_option id].
  do 5 apply substring_app_r. apply substring_app_l.
  apply (substring_concat (render_session choose) session). exact Hs.
Qed.
End Aligned.

Lemma select_tags_known (R : PyRuntime) ex session known st :
  ex !! code session = Some known ->
  @Align.select_tags R ex session st
  = (known,
     {| Align.total_sessions := S (Align.total_sessions st);
        Align.existing_tags_used := S (Align.existing_tags_used st);
        Align.new_tags_generated := Align.new_tags_generated st;
        Align.missing_sessions := Align.missing_sessions st |}).
Proof. intros Hk. unfold Align.select_tags. cbv zeta. now rewrite Hk. Qed.

Lemma emit_session_known (R1 R2 : PyRuntime) ex acc session :
  is_Some (ex !! code session) ->
  @Align.emit_session R1 ex acc session = @Align.emit_session R2 ex acc session.
Proof.
  intros [known Hk]. destruct acc as [g st]. unfold Align.emit_session.
  now rewrite !(select_tags_known _ _ _ known st Hk).
Qed.

Lemma fold_emit_session_known (R1 R2 : PyRuntime) ex sessions acc :
  (forall session, session ∈ sessions -> is_Some (ex !! code session)) ->
  fold_left (@Align.emit_session R1 ex) sessions acc
  = fold_left (@Align.emit_session R2 ex) sessions acc.
Proof.
  revert acc. induction sessions as [|s ss IH]; intros acc Hall; [reflexivity|].
  cbn [fold_left]. rewrite (emit_session_known R1 R2) by (apply Hall; left).
  apply IH. intros s' Hs'. apply Hall. now right.
Qed.

Lemma emit_room_known (R1 R2 : PyRuntime) ex rooms acc r :
  (forall sessions session, rooms !! r = Some sessions -> session ∈ sessions ->
     is_Some (ex !! code session)) ->
  @Align.emit_room R1 ex rooms acc r = @Align.emit_room R2 ex rooms acc r.
Proof.
  intros Hall. destruct acc as [g st]. unfold Align.emit_room. cbv zeta.
  rewrite (fold_emit_session_known R1 R2); [reflexivity|].
  intros session Hs. destruct (rooms !! r) as [sessions|] eqn:Hr.
  - exact (Hall sessions session eq_refl Hs).
  - inversion Hs.
Qed.

Lemma fold_emit_room_known (R1 R2 : PyRuntime) ex rooms rs acc :
  (forall r sessions session, rooms !! r = Some sessions -> session ∈ sessions ->
     is_Some (ex !! code session)) ->
  fold_left (@Align.emit_room R1 ex rooms) rs acc
  = fold_left (@Align.emit_room R2 ex rooms) rs acc.
Proof.
  intros Hall. revert acc. induction rs as [|r rs IH]; intros acc; [reflexivity|].
  cbn [fold_left]. rewrite (emit_room_known R1 R2) by apply Hall. apply IH.
Qed.

Lemma emit_day_known (R1 R2 : PyRuntime) ex data acc d :
  all_known ex data ->
  @Align.emit_day R1 ex data acc d = @Align.emit_day R2 ex data acc d.
Proof.
  intros Hall. destruct acc as [g st]. unfold Align.emit_day. cbv zeta.
  rewrite (fold_emit_room_known R1 R2); [reflexivity|].
  intros r sessions session Hr Hs.
  destruct (data !! d) as [rooms|] eqn:Hd.
  - exact (Hall d rooms r sessions session Hd Hr Hs).
  - cbn in Hr. rewrite lookup_empty in Hr. discriminate.
Qed.

Lemma generate_aligned_go_data_known (R1 R2 : PyRuntime) header data ex :
  all_known ex data ->
  @Align.generate_aligned_go_data R1 header data ex
  = @Align.generate_aligned_go_data R2 header data ex.
Proof.
  intros Hall. unfold Align.generate_aligned_go_data.
  assert (Hfold : forall ds acc,
    fold_left (@Align.emit_day R1 ex data) ds acc
    = fold_left (@Align.emit_day R2 ex data) ds acc).
  { induction ds as [|d ds IH]; intros acc; [reflexivity|].
    cbn [fold_left]. rewrite (emit_day_known R1 R2) by exact Hall. apply IH. }
  now rewrite Hfold.
Qed.

(** ** Outcomes of the normalizer *)

Lemma complete_false slot :
  complete slot = false <->
  negb (truthy (slot_start slot)) || negb (truthy (slot_end slot))
  || negb (truthy_int (slot_room slot)) = true.
Proof.
  unfold complete.
  destruct (truthy (slot_start slot)), (truthy (slot_end slot)),
    (truthy_int (slot_room slot)); simpl; intuition congruence.
Qed.

Lemma parse_slot_time_outcome `{!PyRuntime} slot :
  complete slot = true ->
  if parses (slot_start slot) && parses (slot_end slot)
  then exists t, Pretalx.parse_slot_time slot = Ok t
  else Pretalx.parse_slot_time slot = Raise ValueError.
Proof.
  unfold complete, Pretalx.parse_slot_time, parses.
  destruct (slot_start slot) as [s|]; [|discriminate].
  destruct (slot_end slot) as [e|]; [|now rewrite andb_false_r].
  intros _. cbn [getitem mbind result_bind].
  destruct (datetime_fromisoformat (replace_char 90 (u "+00:00") s)) as [ds|];
    [|reflexivity].
  destruct (datetime_fromisoformat (replace_char 90 (u "+00:00") e)) as [de|];
    [|reflexivity].
  eexists. reflexivity.
Qed.

(** The three outcomes of [process_session], by the first slot. *)
Lemma process_session_outcome `{!PyRuntime} sub speakers rooms tracks :
  match first_slot sub with
  | None => Pretalx.process_session sub speakers rooms tracks = Ok None
  | Some slot =>
    if complete slot
    then if parses (slot_start slot) && parses (slot_end slot)
         then exists s, Pretalx.process_session sub speakers rooms tracks
                        = Ok (Some s)
         else Pretalx.process_session sub speakers rooms tracks
              = Raise ValueError
    else Pretalx.process_session sub speakers rooms tracks = Ok None
  end.
Proof.
  unfold first_slot, Pretalx.process_session.
  destruct (sub_slots sub) as [[|slot rest]|]; try reflexivity.
  destruct (complete slot) eqn:Hc.
  - assert (Hn : negb (truthy (slot_start slot)) || negb (truthy (slot_end slot))
                 || negb (truthy_int (slot_room slot)) = false).
    { destruct (_ || _) eqn:Hb; [|reflexivity].
      apply complete_false in Hb. congruence. }
    rewrite Hn. pose proof (parse_slot_time_outcome slot Hc) as Hp.
    destruct (parses (slot_start slot) && parses (slot_end slot)).
    + destruct Hp as [[[st en] d] ->].
      unfold complete in Hc. destruct (slot_room slot) as [room_id|];
        [|now rewrite andb_false_r in Hc].
      eexists. reflexivity.
    + now rewrite Hp.
  - apply complete_false in Hc. now rewrite Hc.
Qed.

(** X1: a record is skipped exactly when it has no first slot, or its
    first slot has no start, an empty start, no end, an empty end, no room
    or the room id 0. *)
Theorem skipped_iff_incomplete `{!PyRuntime} (sub : Submission)
    (speakers : gmap str Speaker) (rooms tracks : gmap Z Info) :
  Pretalx.process_session sub speakers rooms tracks = Ok None <->
  match first_slot sub with
  | None => True
  | Some slot =>
    slot_start slot = None \/ slot_start slot = Some [] \/
    slot_end slot = None \/ slot_end slot = Some [] \/
    slot_room slot = None \/ slot_room slot = Some 0%Z
  end.
Proof.
  pose proof (process_session_outcome sub speakers rooms tracks) as Ho.
  destruct (first_slot sub) as [slot|]; [|tauto].
  assert (Hc : complete slot = false <->
               slot_start slot = None \/ slot_start slot = Some [] \/
               slot_end slot = None \/ slot_end slot = Some [] \/
               slot_room slot = None \/ slot_room slot = Some 0%Z).
  { unfold complete, truthy, truthy_int.
    destruct (slot_start slot) as [[|c s]|], (slot_end slot) as [[|c' e]|],
      (slot_room slot) as [z|]; simpl;
      try (split; [intros _; tauto | reflexivity]);
      (destruct (Z.eqb_spec z 0) as [->|Hz]; simpl;
       [split; [intros _; tauto | reflexivity]
       |split; [discriminate
               |intros [H0|[H0|[H0|[H0|[H0|H0]]]]]; congruence]]). }
  rewrite <- Hc. destruct (complete slot).
  - destruct (parses (slot_start slot) && parses (slot_end slot)).
    + destruct Ho as [s ->]. split; discriminate.
    + rewrite Ho. split; discriminate.
  - tauto.
Qed.

Lemma process_session_value_error `{!PyRuntime} (sub : Submission)
    (speakers : gmap str Speaker) (rooms tracks : gmap Z Info) :
  Pretalx.process_session sub speakers rooms tracks = Raise ValueError <->
  exists slot, first_slot sub = Some slot /\ complete slot = true /\
               (parses (slot_start slot) = false \/
                parses (slot_end slot) = false).
Proof.
  pose proof (process_session_outcome sub speakers rooms tracks) as Ho.
  destruct (first_slot sub) as [slot|].
  - destruct (complete slot) eqn:Hc.
    + destruct (parses (slot_start slot) && parses (slot_end slot)) eqn:Hp.
      * destruct Ho as [s ->]. split; [discriminate|].
        apply andb_true_iff in Hp as [Hp1 Hp2].
        intros (slot' & [= <-] & _ & [H0|H0]); congruence.
      * rewrite Ho. apply andb_false_iff in Hp. split.
        -- intros _. exists slot. auto.
        -- reflexivity.
    + rewrite Ho. split; [discriminate|].
      intros (slot' & [= <-] & Hc' & _). congruence.
  - rewrite Ho. split; [discriminate|].
    intros (slot' & Hf & _). discriminate.
Qed.

(** X2: the normalizer raises [ValueError] exactly when the first slot has
    a start, an end and a room but its start or its end is not a timestamp
    [fromisoformat] accepts.  The timestamps are parsed before the room,
    the track, the speakers and the answers are read, so a record with the
    same slots raises it too, whatever else it holds and whatever the
    lookup tables are. *)
Theorem raises_iff_unparseable `{!PyRuntime} (sub : Submission)
    (speakers : gmap str Speaker) (rooms tracks : gmap Z Info) :
  (Pretalx.process_session sub speakers rooms tracks = Raise ValueError <->
   exists slot, first_slot sub = Some slot /\ complete slot = true /\
                (parses (slot_start slot) = false \/
                 parses (slot_end slot) = false)) /\
  (forall sub' speakers' rooms' tracks',
     sub_slots sub' = sub_slots sub ->
     Pretalx.process_session sub speakers rooms tracks = Raise ValueError ->
     Pretalx.process_session sub' speakers' rooms' tracks' = Raise ValueError).
Proof.
  split; [apply process_session_value_error|].
  intros sub' speakers' rooms' tracks' Hslots Hr.
  apply process_session_value_error in Hr as (slot & Hf & Hrest).
  apply process_session_value_error. exists slot. split; [|exact Hrest].
  unfold first_slot in *. now rewrite Hslots.
Qed.

Lemma normalize_all_accepted `{!PyRuntime} subs speakers rooms tracks :
  (forall sub e, sub ∈ subs ->
     Pretalx.process_session sub speakers rooms tracks <> Raise e) ->
  Pretalx.normalize_all subs speakers rooms tracks
  = Ok (accepted subs speakers rooms tracks).
Proof.
  induction subs as [|sub subs IH]; intros Hall; [reflexivity|].
  cbn [Pretalx.normalize_all accepted flat_map].
  rewrite IH by (intros sub' e' Hin; apply Hall; now right).
  destruct (Pretalx.process_session sub speakers rooms tracks) as [[s|]|e] eqn:Hp;
    try reflexivity.
  exfalso. apply (Hall sub e); [left|exact Hp].
Qed.

(** The first record that raises ends the batch with its exception. *)
Lemma normalize_all_first_raise `{!PyRuntime} before sub after
    speakers rooms tracks e :
  forallb (fun sub => negb (raises sub speakers rooms tracks)) before = true ->
  Pretalx.process_session sub speakers rooms tracks = Raise e ->
  Pretalx.normalize_all (before ++ sub :: after) speakers rooms tracks
  = Raise e.
Proof.
  intros Hbefore Hr. induction before as [|b before IH];
    cbn [app Pretalx.normalize_all].
  - now rewrite Hr.
  - cbn [forallb] in Hbefore. apply andb_true_iff in Hbefore as [Hb Hbefore].
    unfold raises in Hb.
    destruct (Pretalx.process_session b speakers rooms tracks) as [o|e'];
      [|discriminate].
    cbn [mbind result_bind]. now rewrite (IH Hbefore).
Qed.

(** X3: when no record of a batch raises, [run] returns the aggregate of
    the accepted records, taken in input order; skipped records leave no
    trace. *)
Theorem run_aggregates_accepted `{!PyRuntime} (subs : list Submission)
    (speakers : gmap str Speaker) (rooms tracks : gmap Z Info) :
  forallb (fun sub => negb (raises sub speakers rooms tracks)) subs = true ->
  Pretalx.run subs speakers rooms tracks
  = Ok (Pretalx.aggregate (accepted subs speakers rooms tracks)).
Proof.
  intros Hall. rewrite run_aggregate, normalize_all_accepted; [reflexivity|].
  intros sub e Hin Hr. rewrite forallb_forall in Hall.
  apply list_elem_of_In, Hall in Hin. unfold raises in Hin.
  now rewrite Hr in Hin.
Qed.

Lemma run_aggregates_accepted_witness :
  forallb (fun sub => negb (raises sub ∅ ∅ ∅))
    [Sample.scheduled [] []; Sample.submission None [] []] = true /\
  Pretalx.run [Sample.scheduled [] []; Sample.submission None [] []] ∅ ∅ ∅
  = Ok (Pretalx.aggregate
          (accepted [Sample.scheduled [] []; Sample.submission None [] []]
             ∅ ∅ ∅)).
Proof.
  assert (Hall : forallb (fun sub => negb (raises sub ∅ ∅ ∅))
                   [Sample.scheduled [] []; Sample.submission None [] []]
                 = true) by (vm_compute; reflexivity).
  split; [exact Hall|].
  exact (@run_aggregates_accepted AsciiRuntime.runtime _ ∅ ∅ ∅ Hall).
Defined.

(** X4: a record whose first slot is complete but carries a start or an
    end that is no timestamp makes [run] fail with [ValueError] when no
    record before it raises, whatever the records after it are; the
    sessions gathered so far are not returned. *)
Theorem run_aborts_on_bad_timestamp `{!PyRuntime}
    (before after : list Submission)
    (speakers : gmap str Speaker) (rooms tracks : gmap Z Info)
    (sub : Submission) (slot : Slot) :
  forallb (fun sub => negb (raises sub speakers rooms tracks)) before = true ->
  first_slot sub = Some slot -> complete slot = true ->
  parses (slot_start slot) = false \/ parses (slot_end slot) = false ->
  Pretalx.run (before ++ sub :: after) speakers rooms tracks
  = Raise ValueError.
Proof.
  intros Hbefore Hf Hc Hp.
  assert (Hr : Pretalx.process_session sub speakers rooms tracks
               = Raise ValueError).
  { apply process_session_value_error. exists slot. auto. }
  rewrite run_aggregate.
  now rewrite (normalize_all_first_raise before sub after _ _ _ _ Hbefore Hr).
Qed.

Lemma run_aborts_on_bad_timestamp_witness :
  forallb (fun sub => negb (raises sub ∅ ∅ ∅)) [Sample.scheduled [] []] = true /\
  Pretalx.run ([Sample.scheduled [] []]
               ++ Sample.submission (Some [Sample.unparseable_slot]) [] []
               :: [Sample.scheduled [] []]) ∅ ∅ ∅
  = Raise ValueError.
Proof.
  assert (Hbefore : forallb (fun sub => negb (raises sub ∅ ∅ ∅))
                      [Sample.scheduled [] []] = true)
    by (vm_compute; reflexivity).
  split; [exact Hbefore|].
  apply (@run_aborts_on_bad_timestamp AsciiRuntime.runtime
           [Sample.scheduled [] []] [Sample.scheduled [] []] ∅ ∅ ∅
           _ Sample.unparseable_slot Hbefore).
  - reflexivity.
  - reflexivity.
  - left. reflexivity.
Defined.

(** ** Escaping *)

Lemma flat_map_flat_map {A B C} (f : A -> list B) (g : B -> list C) (l : list A) :
  flat_map g (flat_map f l) = flat_map (fun x => flat_map g (f x)) l.
Proof.
  induction l as [|x l IH]; simpl; [reflexivity|].
  now rewrite flat_map_app, IH.
Qed.

Lemma escape_one_pass s : Align.escape s = flat_map escape_char s.
Proof.
  unfold Align.escape, replace_char. rewrite !flat_map_flat_map.
  apply flat_map_ext. intros x. unfold escape_char, backslash, dquote.
  destruct (N.eqb_spec x 92) as [->|H92]; [reflexivity|].
  destruct (N.eqb_spec x 34) as [->|H34]; [reflexivity|].
  destruct (N.eqb_spec x 10) as [->|H10]; [reflexivity|].
  destruct (N.eqb_spec x 13) as [->|H13]; [reflexivity|].
  apply N.eqb_neq in H92, H34, H10, H13.
  cbn [flat_map app]. rewrite ?H92. cbn [flat_map app]. rewrite ?H34.
  cbn [flat_map app]. rewrite ?H10. cbn [flat_map app]. now rewrite ?H13.
Qed.

Lemma escape_go_string_one_pass s :
  Embedded.escape_go_string (Some s)
  = dquote ++ flat_map escape_go_char s ++ dquote.
Proof.
  unfold Embedded.escape_go_string, replace_char. rewrite !flat_map_flat_map.
  do 2 f_equal.
  apply flat_map_ext. intros x.
  unfold escape_go_char, escape_char, backslash, dquote.
  destruct (N.eqb_spec x 9) as [->|H9]; [reflexivity|].
  destruct (N.eqb_spec x 92) as [->|H92]; [reflexivity|].
  destruct (N.eqb_spec x 34) as [->|H34]; [reflexivity|].
  destruct (N.eqb_spec x 13) as [->|H13]; [reflexivity|].
  destruct (N.eqb_spec x 10) as [->|H10]; [reflexivity|].
  apply N.eqb_neq in H9, H92, H34, H10, H13.
  cbn [flat_map app]. rewrite ?H92. cbn [flat_map app]. rewrite ?H34.
  cbn [flat_map app]. rewrite ?H13. cbn [flat_map app]. rewrite ?H10.
  cbn [flat_map app]. now rewrite ?H9.
Qed.

Lemma go_data_escape_one_pass s :
  GoData.escape s = flat_map escape_quote_newline s.
Proof.
  unfold GoData.escape, replace_char. rewrite !flat_map_flat_map.
  apply flat_map_ext. intros x. unfold escape_quote_newline, backslash, dquote.
  destruct (N.eqb_spec x 34) as [->|H34]; [reflexivity|].
  destruct (N.eqb_spec x 10) as [->|H10]; [reflexivity|].
  apply N.eqb_neq in H34, H10.
  cbn [flat_map app]. rewrite ?H34. cbn [flat_map app]. now rewrite ?H10.
Qed.

Lemma unescape_escape_go_char c rest :
  unescape (escape_go_char c ++ rest) = c :: unescape rest.
Proof.
  unfold escape_go_char, escape_char.
  destruct (N.eqb_spec c 9) as [->|H9]; [reflexivity|].
  destruct (N.eqb_spec c 92) as [->|H92]; [reflexivity|].
  destruct (N.eqb_spec c 34) as [->|H34]; [reflexivity|].
  destruct (N.eqb_spec c 10) as [->|H10]; [reflexivity|].
  destruct (N.eqb_spec c 13) as [->|H13]; [reflexivity|].
  cbn. apply N.eqb_neq in H92. now rewrite ?H92.
Qed.


Lemma unescape_flat_map_go s : unescape (flat_map escape_go_char s) = s.
Proof.
  induction s as [|c s IH]; [reflexivity|].
  cbn [flat_map]. now rewrite unescape_escape_go_char, IH.
Qed.


Lemma escape_char_clean c x :
  In x (escape_go_char c) -> x <> 10 /\ x <> 13 /\ x <> 9.
Proof.
  unfold escape_go_char, escape_char.
  destruct (N.eqb_spec c 9) as [->|H9];
    [cbn; intros [<-|[<-|[]]]; repeat split; discriminate|].
  destruct (N.eqb_spec c 92) as [->|H92];
    [cbn; intros [<-|[<-|[]]]; repeat split; discriminate|].
  destruct (N.eqb_spec c 34) as [->|H34];
    [cbn; intros [<-|[<-|[]]]; repeat split; discriminate|].
  destruct (N.eqb_spec c 10) as [->|H10];
    [cbn; intros [<-|[<-|[]]]; repeat split; discriminate|].
  destruct (N.eqb_spec c 13) as [->|H13];
    [cbn; intros [<-|[<-|[]]]; repeat split; discriminate|].
  cbn. intros [<-|[]]. auto.
Qed.


(** X6: [escape_go_string] wraps the text in double quotes after escaping
    it code point by code point; reading the body back gives the text, the
    body holds no line feed, carriage return or tab, and a missing text is
    written like the empty one. *)
Theorem escape_go_string_round_trip (s : str) :
  Embedded.escape_go_string (Some s)
  = dquote ++ flat_map escape_go_char s ++ dquote /\
  unescape (flat_map escape_go_char s) = s /\
  (forall x, In x (flat_map escape_go_char s) -> x <> 10 /\ x <> 13 /\ x <> 9) /\
  Embedded.escape_go_string None = Embedded.escape_go_string (Some []).
Proof.
  split; [apply escape_go_string_one_pass|].
  split; [apply unescape_flat_map_go|]. split; [|reflexivity].
  intros x Hx. apply in_flat_map in Hx as (c & _ & Hx).
  now apply escape_char_clean in Hx.
Qed.

(** X7: the escaping of [generate_go_data] leaves backslashes and carriage
    returns as they are.  On a text without either it agrees with the
    escaping of the aligned generator; but a line feed and the two code
    points backslash, "n" are written alike, so two different texts can
    get the same literal, and a backslash stays single. *)
Theorem go_data_escape_keeps_backslash (a b : str) :
  (Forall (fun c => c <> 92 /\ c <> 13) a -> GoData.escape a = Align.escape a) /\
  GoData.escape (a ++ [10] ++ b) = GoData.escape (a ++ [92; 110] ++ b) /\
  GoData.escape (a ++ backslash ++ b)
  = GoData.escape a ++ backslash ++ GoData.escape b.
Proof.
  rewrite !go_data_escape_one_pass, escape_one_pass, !flat_map_app.
  split; [|split; reflexivity].
  induction 1 as [|c a [H92 H13] _ IH]; [reflexivity|].
  cbn [flat_map]. rewrite IH. f_equal.
  unfold escape_quote_newline, escape_char.
  apply N.eqb_neq in H92, H13. rewrite ?H92.
  destruct (c =? 34); [reflexivity|]. destruct (c =? 10); [reflexivity|].
  now rewrite ?H13.
Qed.

(** ** Times as strings *)

Lemma below_elem n k : k < N.of_nat n -> In k (below n).
Proof.
  intros Hk. unfold below. apply in_map_iff. exists (N.to_nat k).
  split; [apply N2Nat.id|]. apply in_seq. lia.
Qed.

Lemma two_digits_table :
  forallb (fun a =>
    (length (Pretalx.two_digits a) =? 2)%nat &&
    forallb (fun b => Bool.eqb (str_lt (Pretalx.two_digits a) (Pretalx.two_digits b))
                               (a <? b)) (below 60)) (below 60) = true.
Proof. vm_compute. reflexivity. Qed.

Lemma two_digits_length a : a < 60 -> length (Pretalx.two_digits a) = 2%nat.
Proof.
  intros Ha. pose proof two_digits_table as Ht.
  rewrite forallb_forall in Ht. specialize (Ht a (below_elem 60 a Ha)).
  apply andb_true_iff in Ht as [Hl _]. now apply Nat.eqb_eq in Hl.
Qed.

Lemma two_digits_lt a b :
  a < 60 -> b < 60 ->
  str_lt (Pretalx.two_digits a) (Pretalx.two_digits b) = (a <? b).
Proof.
  intros Ha Hb. pose proof two_digits_table as Ht.
  rewrite forallb_forall in Ht. specialize (Ht a (below_elem 60 a Ha)).
  apply andb_true_iff in Ht as [_ Ht].
  rewrite forallb_forall in Ht. specialize (Ht b (below_elem 60 b Hb)).
  now apply eqb_prop in Ht.
Qed.

Lemma str_lt_app_lt x y s t :
  length x = length y -> str_lt x y = true -> str_lt (x ++ s) (y ++ t) = true.
Proof.
  revert y. induction x as [|c x IH]; intros [|d y] Hlen Hlt;
    try discriminate; simpl in *.
  apply orb_true_iff in Hlt as [Hlt | Hlt]; [now rewrite Hlt|].
  apply andb_true_iff in Hlt as [Heq Hlt]. rewrite Heq.
  rewrite (IH y) by (congruence || assumption). apply orb_true_r.
Qed.

Lemma str_lt_app_same x s t : str_lt (x ++ s) (x ++ t) = str_lt s t.
Proof.
  induction x as [|c x IH]; simpl; [reflexivity|].
  now rewrite N.ltb_irrefl, N.eqb_refl, IH.
Qed.

Lemma strftime_lt a b :
  valid_time a -> valid_time b -> earlier a b ->
  str_lt (Pretalx.strftime_HM a) (Pretalx.strftime_HM b) = true.
Proof.
  intros [Ha1 Ha2] [Hb1 Hb2] [Hh | [Hh Hm]]; unfold Pretalx.strftime_HM.
  - apply str_lt_app_lt.
    + now rewrite !two_digits_length by lia.
    + rewrite two_digits_lt by lia. now apply N.ltb_lt.
  - rewrite Hh, str_lt_app_same, (str_lt_app_same (u ":")).
    rewrite <- (app_nil_r (Pretalx.two_digits (dt_minute a))).
    rewrite <- (app_nil_r (Pretalx.two_digits (dt_minute b))).
    apply str_lt_app_lt.
    + now rewrite !two_digits_length by lia.
    + rewrite two_digits_lt by lia. now apply N.ltb_lt.
Qed.

(** X8: for times of day, the "HH:MM" strings the normalizer emits are
    ordered as the times are: one string is below the other exactly when
    its time is earlier, and the strings are equal exactly when hour and
    minute are.  Sorting a room by [start] is sorting it by time. *)
Theorem start_strings_order_as_times (a b : datetime) :
  valid_time a -> valid_time b ->
  (str_lt (Pretalx.strftime_HM a) (Pretalx.strftime_HM b) = true <-> earlier a b) /\
  (Pretalx.strftime_HM a = Pretalx.strftime_HM b <->
   dt_hour a = dt_hour b /\ dt_minute a = dt_minute b) /\
  length (Pretalx.strftime_HM a) = 5%nat.
Proof.
  intros Ha Hb.
  assert (Hcases : earlier a b \/ earlier b a \/
                   (dt_hour a = dt_hour b /\ dt_minute a = dt_minute b))
    by (unfold earlier; lia).
  assert (Hsame : dt_hour a = dt_hour b /\ dt_minute a = dt_minute b ->
                  Pretalx.strftime_HM a = Pretalx.strftime_HM b).
  { intros [Hh Hm]. unfold Pretalx.strftime_HM. now rewrite Hh, Hm. }
  split; [|split].
  - split; [|now apply strftime_lt].
    intros Hlt. destruct Hcases as [He | [He | He]]; [exact He | |].
    + apply (strftime_lt b a Hb Ha) in He.
      now rewrite (str_lt_asym _ _ Hlt) in He.
    + rewrite (Hsame He), str_lt_irrefl in Hlt. discriminate.
  - split; [|exact Hsame].
    intros Heq. destruct Hcases as [He | [He | He]]; [| |exact He].
    + apply (strftime_lt a b Ha Hb) in He.
      rewrite Heq, str_lt_irrefl in He. discriminate.
    + apply (strftime_lt b a Hb Ha) in He.
      rewrite Heq, str_lt_irrefl in He. discriminate.
  - destruct Ha as [Ha1 Ha2]. unfold Pretalx.strftime_HM.
    rewrite !length_app, !two_digits_length by lia. reflexivity.
Qed.

Lemma start_strings_order_as_times_witness :
  valid_time Sample.nine_thirty /\ valid_time Sample.ten_five /\
  (str_lt (Pretalx.strftime_HM Sample.nine_thirty)
          (Pretalx.strftime_HM Sample.ten_five) = true <->
   earlier Sample.nine_thirty Sample.ten_five).
Proof.
  assert (Ha : valid_time Sample.nine_thirty)
    by (unfold valid_time; simpl; lia).
  assert (Hb : valid_time Sample.ten_five)
    by (unfold valid_time; simpl; lia).
  split; [exact Ha|]. split; [exact Hb|].
  exact (proj1 (start_strings_order_as_times _ _ Ha Hb)).
Defined.

(** ** Answers *)

Lemma lstrip_head s :
  match lstrip s with [] => True | c :: _ => isspace c = false end.
Proof.
  induction s as [|c s IH]; simpl; [exact I|].
  destruct (isspace c) eqn:Hc; [exact IH | exact Hc].
Qed.

Lemma lstrip_suffix s : exists pre, s = pre ++ lstrip s /\ forallb isspace pre = true.
Proof.
  induction s as [|c s (pre & IH & Hpre)]; simpl; [now exists []|].
  destruct (isspace c) eqn:Hc.
  - exists (c :: pre). simpl. rewrite Hc, Hpre. split; [now f_equal|reflexivity].
  - now exists [].
Qed.

Lemma lstrip_fixed s :
  match s with [] => True | c :: _ => isspace c = false end -> lstrip s = s.
Proof. destruct s as [|c s]; simpl; [reflexivity|]. now intros ->. Qed.

Lemma lstrip_keeps_last s c d :
  lstrip s = c :: d -> List.last (lstrip s) c = List.last s c.
Proof.
  intros Hs. destruct (lstrip_suffix s) as (pre & Heq & _).
  rewrite Heq at 2. rewrite Hs in *.
  clear. induction pre as [|p pre IH]; [reflexivity|].
  simpl. destruct (pre ++ c :: d) eqn:Hp; [now destruct pre|]. exact IH.
Qed.

Lemma last_rev_head (s : str) c d x : rev s = c :: d -> List.last s x = c.
Proof.
  intros Hr. apply (f_equal (@rev _)) in Hr. rewrite rev_involutive in Hr.
  subst s. simpl. now rewrite last_last.
Qed.

Lemma head_rev_last (s : str) c d x : s = c :: d -> hd x (rev s) = List.last s x.
Proof.
  intros ->. destruct (rev (c :: d)) as [|e r] eqn:Hr.
  - apply (f_equal (@length _)) in Hr. rewrite length_rev in Hr. discriminate.
  - simpl. symmetry. exact (last_rev_head _ _ _ _ Hr).
Qed.

Lemma strip_trimmed s : trimmed (strip s).
Proof.
  unfold strip, rstrip, trimmed.
  destruct (rev (lstrip (rev (lstrip s)))) as [|c t] eqn:Hs; [exact I|].
  assert (Hlast : isspace (List.last (c :: t) c) = false).
  { rewrite <- Hs.
    destruct (lstrip (rev (lstrip s))) as [|e r] eqn:He; [discriminate|].
    pose proof (lstrip_head (rev (lstrip s))) as Hh. rewrite He in Hh.
    rewrite <- (head_rev_last (rev (e :: r)) c t c Hs).
    now rewrite rev_involutive. }
  split; [|exact Hlast].
  destruct (lstrip (rev (lstrip s))) as [|e r] eqn:He; [discriminate|].
  (* the first code point of the result is the first of [lstrip s] *)
  destruct (lstrip_suffix (rev (lstrip s))) as (pre & Heq & Hpre).
  rewrite He in Heq. apply (f_equal (@rev _)) in Heq.
  rewrite rev_involutive, rev_app_distr in Heq. rewrite Hs in Heq.
  pose proof (lstrip_head s) as Hh. rewrite Heq in Hh. exact Hh.
Qed.

Lemma strip_fixed s : trimmed s -> strip s = s.
Proof.
  unfold trimmed, strip, rstrip. destruct s as [|c s]; [reflexivity|].
  intros [Hc Hl]. rewrite (lstrip_fixed (c :: s)) by exact Hc.
  rewrite lstrip_fixed; [apply rev_involutive|].
  destruct (rev (c :: s)) as [|e r] eqn:Hr; [exact I|].
  now rewrite (last_rev_head _ _ _ c Hr) in Hl.
Qed.

Lemma get_answer_value_find answers q :
  Pretalx.get_answer_value answers q
  = (fun a => strip (default [] (answer_answer a)))
    <$> List.find (answers_question q) answers.
Proof.
  induction answers as [|a rest IH]; simpl; [reflexivity|].
  unfold answers_question at 1.
  destruct (match answer_question a with Some q0 => _ | None => _ end);
    [reflexivity | exact IH].
Qed.

(** X9: [get_answer_value] returns the text of the first answer to the
    question, trimmed: later answers to the same question are ignored, the
    result has no whitespace at either end, trimming it again changes
    nothing, and it is [None] exactly when no answer is one to the
    question. *)
Theorem get_answer_value_first_trimmed (answers : list Answer)
    (question_id : Z) :
  (forall before a after,
     answers = before ++ a :: after ->
     forallb (fun b => negb (answers_question question_id b)) before = true ->
     answers_question question_id a = true ->
     Pretalx.get_answer_value answers question_id
     = Some (strip (default [] (answer_answer a)))) /\
  (forall v, Pretalx.get_answer_value answers question_id = Some v ->
     trimmed v /\ strip v = v) /\
  (Pretalx.get_answer_value answers question_id = None <->
   forallb (fun b => negb (answers_question question_id b)) answers = true).
Proof.
  rewrite get_answer_value_find. split; [|split].
  - intros before a after -> Hbefore Ha.
    induction before as [|b before IH]; simpl.
    + now rewrite Ha.
    + simpl in Hbefore. apply andb_true_iff in Hbefore as [Hb Hbefore].
      apply negb_true_iff in Hb. rewrite Hb. now apply IH.
  - intros v Hv.
    destruct (List.find (answers_question question_id) answers) as [a|];
      [|discriminate].
    injection Hv as <-. split; [apply strip_trimmed|].
    apply strip_fixed, strip_trimmed.
  - induction answers as [|a rest IH]; simpl; [tauto|].
    destruct (answers_question question_id a); simpl; [|exact IH].
    split; discriminate.
Qed.

(** ** Truncation *)

(** X10: truncating an abstract twice is truncating it once, so abstracts
    that were cut before pass unchanged; the cut never touches the first
    200 code points, and an abstract of at most 200 code points is a
    fixed point. *)
Theorem truncate_abstract_idempotent (raw : str) :
  Pretalx.truncate_abstract (Pretalx.truncate_abstract raw)
  = Pretalx.truncate_abstract raw /\
  firstn 200 (Pretalx.truncate_abstract raw) = firstn 200 raw /\
  ((length raw <= 200)%nat -> Pretalx.truncate_abstract raw = raw).
Proof.
  unfold Pretalx.truncate_abstract.
  destruct (Nat.ltb_spec 200 (length raw)) as [Hlong | Hshort].
  - assert (Hlen : length (firstn 200 raw ++ u "...") = 203%nat).
    { rewrite length_app, length_take. change (length (u "...")) with 3%nat. lia. }
    assert (Hpre : firstn 200 (firstn 200 raw ++ u "...") = firstn 200 raw).
    { rewrite take_app_le by (rewrite length_take; lia).
      rewrite take_take. f_equal. }
    rewrite Hlen. change (200 <? 203)%nat with true. cbv iota.
    rewrite Hpre. split; [reflexivity|]. split; [reflexivity|]. lia.
  - destruct (Nat.ltb_spec 200 (length raw)); [lia|]. auto.
Qed.

(** ** Tags and their Go constants *)

Lemma filter_map_NoDup {A B} (g : A -> B) (f : A -> bool) (l : list A) :
  NoDup (List.map g l) -> NoDup (List.map g (List.filter f l)).
Proof.
  induction l as [|x l IH]; simpl; [auto|].
  intros Hnd. apply NoDup_cons in Hnd as [Hx Hnd].
  destruct (f x); simpl; [|now apply IH].
  apply NoDup_cons. split; [|now apply IH].
  intros Hin. apply Hx. apply list_elem_of_In, in_map_iff in Hin
    as (y & Hy & Hin). apply filter_In in Hin as [Hin _].
  apply list_elem_of_In, in_map_iff. now exists y.
Qed.

Lemma filter_map_forallb {A B} (g : A -> B) (f : A -> bool) (p : B -> bool)
    (l : list A) :
  forallb p (List.map g l) = true ->
  forallb p (List.map g (List.filter f l)) = true.
Proof.
  induction l as [|x l IH]; simpl; [auto|].
  intros Hall. apply andb_true_iff in Hall as [Hx Hall].
  destruct (f x); simpl; [|now apply IH]. now rewrite Hx, IH.
Qed.

Lemma or_default_NoDup text tags : NoDup tags -> NoDup (or_default text tags).
Proof.
  destruct tags; simpl; [|auto]. intros _. apply NoDup_singleton.
Qed.

Lemma or_default_forallb (p : str -> bool) text tags :
  p TagKeynote = true -> p TagSystem = true ->
  forallb p tags = true -> forallb p (or_default text tags) = true.
Proof.
  intros Hk Hs. destruct tags; simpl; [|auto]. intros _.
  unfold default_tag. destruct (_ || _); now rewrite ?Hk, ?Hs.
Qed.

Lemma NoDup_checked (l : list str) : bool_decide (NoDup l) = true -> NoDup l.
Proof. apply bool_decide_eq_true. Qed.

Lemma pretalx_rules_tags :
  NoDup (List.map snd pretalx_rules) /\
  forallb has_constant (List.map snd pretalx_rules) = true.
Proof. split; [apply NoDup_checked|]; vm_compute; reflexivity. Qed.

Lemma fallback_rules_tags :
  NoDup (List.map snd fallback_rules) /\
  forallb has_constant (List.map snd fallback_rules) = true.
Proof. split; [apply NoDup_checked|]; vm_compute; reflexivity. Qed.

Lemma embedded_rules_tags :
  NoDup (List.map field_tag embedded_rules) /\
  forallb is_constant (List.map field_tag embedded_rules) = true.
Proof. split; [apply NoDup_checked|]; vm_compute; reflexivity. Qed.

(** X11: the three classifiers never return a tag twice, and every tag
    they return has a Go constant: the two pretalx-side classifiers return
    display labels of the tag table, [generate_tags] returns names of
    declared constants.  No generated tag is ever written as a quoted
    string. *)
Theorem classifier_tags_distinct_with_constants `{!PyRuntime}
    (track_ title_ abstract_ : str) (session : Session)
    (json : Embedded.JsonSession) :
  (NoDup (Pretalx.classify_session_tags track_ title_ abstract_) /\
   forallb has_constant (Pretalx.classify_session_tags track_ title_ abstract_)
   = true) /\
  (NoDup (Align.generate_fallback_tags session) /\
   forallb has_constant (Align.generate_fallback_tags session) = true) /\
  (NoDup (Embedded.generate_tags json) /\
   forallb is_constant (Embedded.generate_tags json) = true).
Proof.
  rewrite classify_session_tags_table, generate_fallback_tags_table,
    generate_tags_table.
  destruct pretalx_rules_tags as [Hp1 Hp2].
  destruct fallback_rules_tags as [Hf1 Hf2].
  destruct embedded_rules_tags as [He1 He2].
  split; [|split]; split.
  - apply or_default_NoDup, filter_map_NoDup, Hp1.
  - apply or_default_forallb; [reflexivity..|].
    apply filter_map_forallb, Hp2.
  - apply or_default_NoDup, filter_map_NoDup, Hf1.
  - apply or_default_forallb; [reflexivity..|].
    apply filter_map_forallb, Hf2.
  - apply (sublist_NoDup (firstn 2 (collected_tags json)) (collected_tags json));
      [|apply sublist_take].
    unfold collected_tags.
    destruct (List.map field_tag (List.filter _ embedded_rules)) eqn:Hm.
    + apply NoDup_singleton.
    + rewrite <- Hm. apply filter_map_NoDup, He1.
  - apply forallb_forall. intros t Ht.
    apply list_elem_of_In, elem_of_take in Ht as (i & Ht & _).
    apply list_elem_of_lookup_2, list_elem_of_In in Ht.
    revert t Ht. apply forallb_forall.
    unfold collected_tags.
    destruct (List.map field_tag (List.filter _ embedded_rules)) eqn:Hm.
    + reflexivity.
    + rewrite <- Hm. apply filter_map_forallb, He2.
Qed.

Lemma assoc_In k v (table : list (str * str)) :
  assoc k table = Some v -> In (k, v) table.
Proof.
  induction table as [|[k' v'] table IH]; simpl; [discriminate|].
  destruct (decide (k = k')) as [->|Hne]; [intros [= ->]; now left|].
  intros Hk. right. now apply IH.
Qed.

Lemma tag_tables_inverse :
  forallb (fun '(tag, const) =>
             bool_decide (Align.constant_map !! const = Some tag))
          tag_table = true.
Proof. vm_compute. reflexivity. Qed.

Lemma constant_of_label tag :
  has_constant tag = true ->
  Align.constant_map !! Align.tag_constant tag = Some tag.
Proof.
  unfold has_constant, Align.tag_constant. rewrite bool_decide_eq_true.
  change Align.tag_map with (list_to_map tag_table : gmap str str).
  rewrite lookup_table_assoc. intros [const Hc]. rewrite Hc.
  change (default _ (Some const)) with const.
  apply assoc_In in Hc.
  pose proof tag_tables_inverse as Ht. rewrite forallb_forall in Ht.
  apply Ht in Hc. now apply bool_decide_eq_true in Hc.
Qed.

Lemma add_match_nonempty tags_mapping found :
  (forall code tags, tags_mapping !! code = Some tags -> tags <> []) ->
  forall code tags,
    Align.add_match tags_mapping found !! code = Some tags -> tags <> [].
Proof.
  intros Hinv code tags. destruct found as [code' consts].
  unfold Align.add_match.
  destruct (Align.labels_of_constants consts) as [|t ts] eqn:Hl; [apply Hinv|].
  destruct (decide (code' = code)) as [->|Hne].
  - rewrite lookup_insert_eq. intros [= <-]. discriminate.
  - rewrite lookup_insert_ne by exact Hne. apply Hinv.
Qed.

Lemma labels_of_constants_cons c cs :
  Align.labels_of_constants (c :: cs)
  = if is_constant c
    then default c (Align.constant_map !! c) :: Align.labels_of_constants cs
    else Align.labels_of_constants cs.
Proof.
  unfold Align.labels_of_constants, is_constant. cbn [List.filter].
  now destruct (bool_decide _).
Qed.

Lemma labels_of_constants_app a b :
  Align.labels_of_constants (a ++ b)
  = Align.labels_of_constants a ++ Align.labels_of_constants b.
Proof.
  unfold Align.labels_of_constants.
  now rewrite List.filter_app, List.map_app.
Qed.

Lemma labels_of_constants_omap consts :
  Align.labels_of_constants consts
  = omap (fun c => Align.constant_map !! c) consts.
Proof.
  induction consts as [|c consts IH]; [reflexivity|].
  rewrite labels_of_constants_cons. unfold is_constant. cbn [omap list_omap].
  fold (omap (fun c => Align.constant_map !! c) consts). rewrite <- IH.
  destruct (Align.constant_map !! c) as [label|] eqn:Hc.
  - now rewrite bool_decide_eq_true_2 by eauto.
  - now rewrite bool_decide_eq_false_2 by (intros [? ?]; discriminate).
Qed.

(** The constants written for tags that have one are read back as those
    tags. *)
Lemma labels_of_tag_constants tags :
  forallb has_constant tags = true ->
  Align.labels_of_constants (List.map Align.tag_constant tags) = tags.
Proof.
  induction tags as [|t tags IH]; [reflexivity|].
  cbn [forallb List.map]. intros Hall.
  apply andb_true_iff in Hall as [Ht Hall].
  pose proof (constant_of_label t Ht) as Hc.
  rewrite labels_of_constants_cons. unfold is_constant.
  rewrite bool_decide_eq_true_2 by (rewrite Hc; eauto).
  rewrite Hc, IH by exact Hall. reflexivity.
Qed.

(** X12: the table that reads Go constants back into display labels
    inverts the table that writes them: the constants written for tags
    that have one are read back as those tags, in order.  Every constant
    of a list is read on its own: one the table knows gives its label at
    its place, one the table does not know is dropped, wherever it stands
    and whatever stands around it.  And the loaded table never maps a code
    to an empty tag list. *)
Theorem tag_constants_round_trip (tags consts : list str)
    (found : list (str * list str)) (code_ : str) (loaded : list str) :
  (forallb has_constant tags = true ->
   Align.labels_of_constants (List.map Align.tag_constant tags) = tags) /\
  Align.labels_of_constants consts
  = omap (fun c => Align.constant_map !! c) consts /\
  (forall before c after,
     Align.constant_map !! c = None ->
     Align.labels_of_constants (before ++ c :: after)
     = Align.labels_of_constants before ++ Align.labels_of_constants after) /\
  (forall before c after label,
     Align.constant_map !! c = Some label ->
     Align.labels_of_constants (before ++ c :: after)
     = Align.labels_of_constants before
       ++ label :: Align.labels_of_constants after) /\
  (Align.load_matches found !! code_ = Some loaded -> loaded <> []).
Proof.
  split; [apply labels_of_tag_constants|].
  split; [apply labels_of_constants_omap|].
  split; [|split].
  - intros before c after Hc.
    rewrite labels_of_constants_app, labels_of_constants_cons.
    unfold is_constant.
    now rewrite bool_decide_eq_false_2 by (rewrite Hc; intros [? ?]; discriminate).
  - intros before c after label Hc.
    rewrite labels_of_constants_app, labels_of_constants_cons.
    unfold is_constant.
    rewrite bool_decide_eq_true_2 by (rewrite Hc; eauto).
    now rewrite Hc.
  - unfold Align.load_matches.
    assert (Hgen : forall m,
      (forall code l, m !! code = Some l -> l <> []) ->
      forall code l,
        fold_left Align.add_match found m !! code = Some l -> l <> []).
    { induction found as [|f found IH]; intros m Hinv; [exact Hinv|].
      cbn [fold_left]. apply IH. now apply add_match_nonempty. }
    apply Hgen. intros code l. rewrite lookup_empty. discriminate.
Qed.

(** ** The aggregate as a whole *)

Lemma flat_map_bind {A B} (f : A -> list B) (l : list A) :
  flat_map f l = l ≫= f.
Proof. induction l as [|x l IH]; simpl; [reflexivity|]. now rewrite IH. Qed.

Lemma bind_fmap_list {A B C} (g : A -> B) (f : B -> list C) (l : list A) :
  (g <$> l) ≫= f = l ≫= (fun x => f (g x)).
Proof. induction l as [|x l IH]; csimpl; [reflexivity|]. now rewrite IH. Qed.

Lemma bind_perm_pointwise {A B} (f g : A -> list B) (l : list A) :
  (forall x, x ∈ l -> f x ≡ₚ g x) -> l ≫= f ≡ₚ l ≫= g.
Proof.
  induction l as [|x l IH]; intros Hfg; csimpl; [reflexivity|].
  rewrite (Hfg x) by left. rewrite IH; [reflexivity|].
  intros y Hy. apply Hfg. now right.
Qed.

Lemma sorted_keys_perm {V} (m : gmap str V) :
  Align.sorted_keys m ≡ₚ (map_to_list m).*1.
Proof. unfold Align.sorted_keys. apply sort_by_perm. Qed.

Lemma sorted_flattened {V X} (F : V -> list X) (dflt : V) (m : gmap str V) :
  flat_map (fun k => F (default dflt (m !! k))) (Align.sorted_keys m)
  ≡ₚ flattened F m.
Proof.
  rewrite flat_map_bind, sorted_keys_perm. unfold flattened.
  rewrite bind_fmap_list. apply bind_perm_pointwise.
  intros [k v] Hkv. apply elem_of_map_to_list in Hkv. simpl. now rewrite Hkv.
Qed.

Lemma sessions_in_order_flattened data :
  sessions_in_order data ≡ₚ flattened (flattened id) data.
Proof.
  unfold sessions_in_order.
  rewrite <- (sorted_flattened (flattened id) ∅ data).
  rewrite !flat_map_bind. apply bind_perm_pointwise. intros d _.
  apply (sorted_flattened id []).
Qed.

Lemma flattened_empty {V X} (F : V -> list X) : flattened F ∅ = [].
Proof. unfold flattened. now rewrite map_to_list_empty. Qed.

Lemma flattened_insert {V X} (F : V -> list X) (m : gmap str V) k v :
  flattened F (<[k := v]> m) ≡ₚ F v ++ flattened F (delete k m).
Proof.
  unfold flattened. rewrite <- insert_delete_eq.
  rewrite map_to_list_insert by apply lookup_delete_eq. reflexivity.
Qed.

Lemma flattened_lookup {V X} (F : V -> list X) (m : gmap str V) k :
  flattened F m ≡ₚ from_option F [] (m !! k) ++ flattened F (delete k m).
Proof.
  unfold flattened. destruct (m !! k) as [v|] eqn:Hk; simpl.
  - now rewrite <- (map_to_list_delete m k v Hk).
  - now rewrite delete_id.
Qed.

Lemma flattened_update {V X} (F : V -> list X) (m : gmap str V) k v x :
  F v ≡ₚ x :: from_option F [] (m !! k) ->
  flattened F (<[k := v]> m) ≡ₚ x :: flattened F m.
Proof.
  intros Hv. rewrite flattened_insert, Hv, (flattened_lookup F m k).
  reflexivity.
Qed.

Lemma flattened_insert_session agg s :
  flattened (flattened id) (Pretalx.insert_session agg s)
  ≡ₚ s :: flattened (flattened id) agg.
Proof.
  unfold Pretalx.insert_session. apply flattened_update.
  assert (Hby : from_option (flattened id) [] (agg !! day s)
                = flattened id (default ∅ (agg !! day s))).
  { destruct (agg !! day s); simpl; [reflexivity|].
    now rewrite flattened_empty. }
  rewrite Hby. apply flattened_update.
  unfold id at 1. rewrite Permutation_app_comm. reflexivity.
Qed.

Lemma flattened_fold ss agg :
  flattened (flattened id) (fold_left Pretalx.insert_session ss agg)
  ≡ₚ flattened (flattened id) agg ++ ss.
Proof.
  revert agg. induction ss as [|s ss IH]; intros agg; cbn [fold_left].
  - now rewrite app_nil_r.
  - rewrite IH, flattened_insert_session. apply Permutation_middle.
Qed.

Lemma flattened_fmap {V W X} (F : W -> list X) (g : V -> W) (m : gmap str V) :
  flattened F (g <$> m) = flattened (fun v => F (g v)) m.
Proof.
  unfold flattened. rewrite map_to_list_fmap, bind_fmap_list.
  f_equal.
Qed.

Lemma flattened_sort_buckets agg :
  flattened (flattened id) (Pretalx.sort_buckets agg)
  ≡ₚ flattened (flattened id) agg.
Proof.
  unfold Pretalx.sort_buckets. rewrite flattened_fmap.
  unfold flattened at 1 3. apply bind_perm_pointwise. intros [d rooms] _.
  cbn [snd]. rewrite flattened_fmap.
  unfold flattened. apply bind_perm_pointwise. intros [r l] _.
  cbn [snd]. unfold id. apply sort_by_perm.
Qed.

(** X13: the aggregate holds every session of the batch exactly once:
    read in writing order, it is a rearrangement of the batch, so it has as
    many sessions as the batch has. *)
Theorem aggregate_keeps_every_session (sessions : list Session) :
  sessions_in_order (Pretalx.aggregate sessions) ≡ₚ sessions /\
  length (sessions_in_order (Pretalx.aggregate sessions)) = length sessions.
Proof.
  assert (Hperm : sessions_in_order (Pretalx.aggregate sessions) ≡ₚ sessions).
  { rewrite sessions_in_order_flattened. unfold Pretalx.aggregate.
    rewrite flattened_sort_buckets, flattened_fold, flattened_empty.
    reflexivity. }
  split; [exact Hperm|]. now rewrite Hperm.
Qed.

(** ** Buckets *)

Lemma insert_session_no_empty agg s :
  no_empty_bucket agg -> no_empty_bucket (Pretalx.insert_session agg s).
Proof.
  intros Hinv d rooms. unfold Pretalx.insert_session.
  destruct (decide (day s = d)) as [<-|Hd].
  - rewrite lookup_insert_eq. intros [= <-]. split.
    + apply insert_non_empty.
    + intros r l. destruct (decide (room s = r)) as [<-|Hr].
      * rewrite lookup_insert_eq. intros [= <-]. now destruct (default [] _).
      * rewrite lookup_insert_ne by exact Hr.
        destruct (agg !! day s) as [by_room|] eqn:Hday; simpl.
        -- apply (Hinv _ _ Hday).
        -- rewrite lookup_empty. discriminate.
  - rewrite lookup_insert_ne by exact Hd. apply Hinv.
Qed.

Lemma fold_insert_session_no_empty ss agg :
  no_empty_bucket agg ->
  no_empty_bucket (fold_left Pretalx.insert_session ss agg).
Proof.
  revert agg. induction ss as [|s ss IH]; intros agg Hinv; [exact Hinv|].
  cbn [fold_left]. apply IH. now apply insert_session_no_empty.
Qed.

Lemma sort_buckets_no_empty agg :
  no_empty_bucket agg -> no_empty_bucket (Pretalx.sort_buckets agg).
Proof.
  intros Hinv d rooms. unfold Pretalx.sort_buckets.
  rewrite lookup_fmap_Some. intros (rooms0 & <- & Hd).
  destruct (Hinv _ _ Hd) as [Hne Hl]. split.
  - intros Hempty. apply fmap_empty_inv in Hempty. contradiction.
  - intros r l. rewrite lookup_fmap_Some. intros (l0 & <- & Hr).
    specialize (Hl _ _ Hr). intros Hnil. apply Hl.
    apply Permutation_nil_r. rewrite <- Hnil. symmetry. apply sort_by_perm.
Qed.

Lemma aggregate_no_empty ss : no_empty_bucket (Pretalx.aggregate ss).
Proof.
  apply sort_buckets_no_empty, fold_insert_session_no_empty.
  intros d rooms. rewrite lookup_empty. discriminate.
Qed.

Lemma bucket_lookup agg d rooms r l :
  agg !! d = Some rooms -> rooms !! r = Some l -> bucket agg d r = l.
Proof. intros Hd Hr. unfold bucket. rewrite Hd. simpl. now rewrite Hr. Qed.

(** X14: the aggregate has no empty day and no empty room; the sessions
    stored under a day and a room are sessions of the batch that carry that
    day and that room; and every session of the batch is stored under its
    own day and room. *)
Theorem aggregate_buckets_hold_their_sessions (sessions : list Session) :
  (forall d rooms, Pretalx.aggregate sessions !! d = Some rooms ->
     rooms <> ∅ /\
     forall r l, rooms !! r = Some l ->
       l <> [] /\
       forall s, s ∈ l -> s ∈ sessions /\ day s = d /\ room s = r) /\
  (forall s, s ∈ sessions ->
     exists rooms l,
       Pretalx.aggregate sessions !! day s = Some rooms /\
       rooms !! room s = Some l /\ s ∈ l).
Proof.
  split.
  - intros d rooms Hd.
    destruct (aggregate_no_empty sessions d rooms Hd) as [Hne Hl].
    split; [exact Hne|]. intros r l Hr. split; [exact (Hl r l Hr)|].
    intros s Hs. rewrite <- (bucket_lookup _ _ _ _ _ Hd Hr) in Hs.
    rewrite bucket_aggregate, sort_by_perm in Hs.
    apply list_elem_of_filter in Hs as [[Hday Hroom] Hin]. auto.
  - intros s Hs.
    assert (Hin : s ∈ bucket (Pretalx.aggregate sessions) (day s) (room s)).
    { rewrite bucket_aggregate, sort_by_perm.
      apply list_elem_of_filter. split; [split; reflexivity | exact Hs]. }
    unfold bucket in Hin.
    destruct (Pretalx.aggregate sessions !! day s) as [rooms|];
      [|inversion Hin].
    simpl in Hin. destruct (rooms !! room s) as [l|] eqn:Hr; [|inversion Hin].
    exists rooms, l. auto.
Qed.

(** ** Keys in order *)

(** X15: [sorted(d.keys())]: the days, and the rooms of a day, are visited
    in strictly ascending order of their names, each key of the dict once
    and nothing else. *)
Theorem sorted_keys_ascending {V} (m : gmap str V) (k : str) :
  ascending (Align.sorted_keys m) /\ NoDup (Align.sorted_keys m) /\
  (k ∈ Align.sorted_keys m <-> is_Some (m !! k)).
Proof.
  assert (Hnd : NoDup (Align.sorted_keys m)).
  { rewrite sorted_keys_perm. apply NoDup_fst_map_to_list. }
  split; [|split; [exact Hnd|]].
  - unfold ascending.
    pose proof (sort_by_sorted id (List.map fst (map_to_list m))) as Hs.
    fold (Align.sorted_keys m) in Hs.
    induction Hs as [|a l Hs IH Hall]; constructor.
    + apply IH. now apply NoDup_cons in Hnd as [_ Hnd].
    + apply NoDup_cons in Hnd as [Ha _].
      rewrite Forall_forall in *. intros b Hb. specialize (Hall b Hb).
      unfold key_le, str_le, id in Hall. apply negb_true_iff in Hall.
      destruct (str_lt a b) eqn:Hab; [reflexivity|].
      exfalso. apply Ha. now rewrite (str_lt_total a b Hab Hall).
  - rewrite sorted_keys_perm, list_elem_of_fmap. split.
    + intros ([k' v] & -> & Hkv). apply elem_of_map_to_list in Hkv. eauto.
    + intros [v Hv]. exists (k, v). split; [reflexivity|].
      now apply elem_of_map_to_list.
Qed.

(** ** The counters of the aligned generator *)

Lemma stats_after_nil ex st : stats_after ex [] st = st.
Proof.
  destruct st. unfold stats_after. simpl.
  now rewrite !Nat.add_0_r, app_nil_r.
Qed.

Lemma stats_after_app ex a b st :
  stats_after ex (a ++ b) st = stats_after ex b (stats_after ex a st).
Proof.
  unfold stats_after. cbn [Align.total_sessions Align.existing_tags_used
    Align.new_tags_generated Align.missing_sessions].
  rewrite !List.filter_app, !length_app, !List.map_app, !app_assoc.
  f_equal; lia.
Qed.

Section Counters.
Context `{!PyRuntime}.

Lemma emit_session_snd ex g st s :
  snd (Align.emit_session ex (g, st) s) = stats_after ex [s] st.
Proof.
  unfold Align.emit_session, Align.select_tags, stats_after, known.
  cbn [List.filter length List.map negb
       Align.total_sessions Align.existing_tags_used
       Align.new_tags_generated Align.missing_sessions].
  destruct (ex !! code s) as [tags|] eqn:Hk.
  - rewrite bool_decide_eq_true_2 by eauto. cbn. f_equal; try lia.
    now rewrite app_nil_r.
  - rewrite bool_decide_eq_false_2 by (intros [? ?]; discriminate).
    cbn. f_equal; lia.
Qed.

Lemma fold_emit_session_snd ex ss g st :
  snd (fold_left (Align.emit_session ex) ss (g, st)) = stats_after ex ss st.
Proof.
  revert g st. induction ss as [|s ss IH]; intros g st; cbn [fold_left].
  - now rewrite stats_after_nil.
  - destruct (Align.emit_session ex (g, st) s) as [g' st'] eqn:He.
    rewrite IH. pose proof (emit_session_snd ex g st s) as Hs.
    pose proof (eq_trans (eq_sym (f_equal snd He)) Hs) as Hst;
      cbn [snd] in Hst; subst st'.
    now rewrite <- stats_after_app.
Qed.

Lemma emit_room_snd ex rooms g st r :
  snd (Align.emit_room ex rooms (g, st) r)
  = stats_after ex (default [] (rooms !! r)) st.
Proof.
  unfold Align.emit_room.
  destruct (fold_left _ _ _) as [g' st'] eqn:He.
  pose proof (fold_emit_session_snd ex (default [] (rooms !! r))
                (g ++ tab ++ tab ++ Align.quoted r ++ u ": {" ++ newline) st)
    as Hs.
  pose proof (eq_trans (eq_sym (f_equal snd He)) Hs) as Hst;
    cbn [snd] in Hst; subst st'. reflexivity.
Qed.

Lemma fold_emit_room_snd ex rooms rs g st :
  snd (fold_left (Align.emit_room ex rooms) rs (g, st))
  = stats_after ex (flat_map (fun r => default [] (rooms !! r)) rs) st.
Proof.
  revert g st. induction rs as [|r rs IH]; intros g st;
    cbn [fold_left flat_map].
  - now rewrite stats_after_nil.
  - destruct (Align.emit_room ex rooms (g, st) r) as [g' st'] eqn:He.
    rewrite IH. pose proof (emit_room_snd ex rooms g st r) as Hs.
    pose proof (eq_trans (eq_sym (f_equal snd He)) Hs) as Hst;
      cbn [snd] in Hst; subst st'.
    now rewrite <- stats_after_app.
Qed.

Lemma emit_day_snd ex data g st d :
  snd (Align.emit_day ex data (g, st) d)
  = stats_after ex
      (flat_map (fun r => default [] (default ∅ (data !! d) !! r))
                (Align.sorted_keys (default ∅ (data !! d)))) st.
Proof.
  unfold Align.emit_day.
  destruct (fold_left _ _ _) as [g' st'] eqn:He.
  pose proof (fold_emit_room_snd ex (default ∅ (data !! d))
                (Align.sorted_keys (default ∅ (data !! d)))
                (g ++ tab ++ Align.quoted d ++ u ": {" ++ newline) st) as Hs.
  pose proof (eq_trans (eq_sym (f_equal snd He)) Hs) as Hst;
    cbn [snd] in Hst; subst st'. reflexivity.
Qed.

Lemma fold_emit_day_snd ex data ds g st :
  snd (fold_left (Align.emit_day ex data) ds (g, st))
  = stats_after ex
      (flat_map (fun d =>
                   flat_map (fun r => default [] (default ∅ (data !! d) !! r))
                            (Align.sorted_keys (default ∅ (data !! d)))) ds)
      st.
Proof.
  revert g st. induction ds as [|d ds IH]; intros g st;
    cbn [fold_left flat_map].
  - now rewrite stats_after_nil.
  - destruct (Align.emit_day ex data (g, st) d) as [g' st'] eqn:He.
    rewrite IH. pose proof (emit_day_snd ex data g st d) as Hs.
    pose proof (eq_trans (eq_sym (f_equal snd He)) Hs) as Hst;
      cbn [snd] in Hst; subst st'.
    now rewrite <- stats_after_app.
Qed.

Lemma generate_aligned_go_data_snd header data ex :
  snd (Align.generate_aligned_go_data header data ex)
  = stats_after ex (sessions_in_order data) Align.stats0.
Proof.
  unfold Align.generate_aligned_go_data.
  destruct (fold_left _ _ _) as [g' st'] eqn:He.
  pose proof (fold_emit_day_snd ex data (Align.sorted_keys data) header
                Align.stats0) as Hs.
  pose proof (eq_trans (eq_sym (f_equal snd He)) Hs) as Hst;
    cbn [snd] in Hst; subst st'. reflexivity.
Qed.
End Counters.

Lemma filter_partition_length {A} (f : A -> bool) (l : list A) :
  (length (List.filter f l) + length (List.filter (fun x => negb (f x)) l)
   = length l)%nat.
Proof.
  induction l as [|x l IH]; simpl; [reflexivity|].
  destruct (f x); simpl; lia.
Qed.

(** X16: the statistics the aligned generator returns count the sessions
    it wrote: [total_sessions] is their number, [existing_tags_used] the
    number of those whose code is in the known-tags table,
    [new_tags_generated] the number of the others, and [missing_sessions]
    the codes of the others in writing order; so the two counters add up
    to the total and the list is as long as the second counter says. *)
Theorem aligned_statistics_count_sessions `{!PyRuntime} (go_header : str)
    (data : gmap str (gmap str (list Session)))
    (existing_tags : gmap str (list str)) :
  let stats := snd (Align.generate_aligned_go_data go_header data existing_tags) in
  let written := sessions_in_order data in
  let unknown := List.filter (fun s => negb (known existing_tags s)) written in
  Align.total_sessions stats = length written /\
  Align.existing_tags_used stats
  = length (List.filter (known existing_tags) written) /\
  Align.new_tags_generated stats = length unknown /\
  Align.missing_sessions stats = List.map code unknown /\
  (Align.existing_tags_used stats + Align.new_tags_generated stats
   = Align.total_sessions stats)%nat /\
  length (Align.missing_sessions stats) = Align.new_tags_generated stats.
Proof.
  intros stats written unknown. subst stats.
  rewrite generate_aligned_go_data_snd. fold written.
  unfold stats_after. cbn [Align.total_sessions Align.existing_tags_used
    Align.new_tags_generated Align.missing_sessions Align.stats0].
  fold unknown. cbn [app Nat.add].
  repeat split.
  - apply (filter_partition_length (known existing_tags) written).
  - apply length_map.
Qed.

(** ** The two Go writers *)

Lemma fold_go_emit_session ss g :
  fold_left GoData.emit_session ss g
  = g ++ concat (List.map GoData.session_literal ss).
Proof.
  revert g. induction ss as [|s ss IH]; intros g; cbn [fold_left List.map concat].
  - now rewrite app_nil_r.
  - rewrite IH. unfold GoData.emit_session. now rewrite <- app_assoc.
Qed.

Lemma go_emit_room rooms g r :
  GoData.emit_room rooms g r = g ++ room_text GoData.session_literal rooms r.
Proof.
  unfold GoData.emit_room, room_text. cbv zeta.
  rewrite fold_go_emit_session. now rewrite <- !app_assoc.
Qed.

Lemma fold_go_emit_room rooms rs g :
  fold_left (GoData.emit_room rooms) rs g
  = g ++ concat (List.map (room_text GoData.session_literal rooms) rs).
Proof.
  revert g. induction rs as [|r rs IH]; intros g; cbn [fold_left List.map concat].
  - now rewrite app_nil_r.
  - rewrite IH, go_emit_room. now rewrite <- app_assoc.
Qed.

Lemma go_emit_day data g d :
  GoData.emit_day data g d = g ++ day_text GoData.session_literal data d.
Proof.
  unfold GoData.emit_day, day_text. cbv zeta.
  rewrite fold_go_emit_room. now rewrite <- !app_assoc.
Qed.

Lemma generate_go_data_text header data :
  GoData.generate_go_data header data
  = data_text GoData.session_literal header data.
Proof.
  unfold GoData.generate_go_data, data_text. cbv zeta.
  assert (Hfold : forall ds g,
    fold_left (GoData.emit_day data) ds g
    = g ++ concat (List.map (day_text GoData.session_literal data) ds)).
  { induction ds as [|d ds IH]; intros g; cbn [fold_left List.map concat].
    - now rewrite app_nil_r.
    - rewrite IH, go_emit_day. now rewrite <- app_assoc. }
  rewrite Hfold. now rewrite <- !app_assoc.
Qed.

Lemma render_data_text choose header data :
  render choose header data = data_text (render_session choose) header data.
Proof. reflexivity. Qed.

Lemma data_text_ext lit1 lit2 header data :
  Forall (fun s => lit1 s = lit2 s) (sessions_in_order data) ->
  data_text lit1 header data = data_text lit2 header data.
Proof.
  unfold data_text, sessions_in_order. intros Hall. do 2 f_equal.
  induction (Align.sorted_keys data) as [|d ds IH]; [reflexivity|].
  cbn [flat_map List.map concat] in *. apply Forall_app in Hall as [Hd Hds].
  rewrite IH by exact Hds. f_equal.
  unfold day_text. cbv zeta. do 5 f_equal.
  induction (Align.sorted_keys (default ∅ (data !! d))) as [|r rs IHr];
    [reflexivity|].
  cbn [flat_map List.map concat] in *. apply Forall_app in Hd as [Hr Hrs].
  rewrite IHr by exact Hrs. f_equal.
  unfold room_text. do 6 f_equal.
  induction Hr as [|s ss Hs _ IHs]; [reflexivity|].
  cbn [List.map concat]. now rewrite Hs, IHs.
Qed.

Lemma plain_escape t : plain t = true -> GoData.escape t = Align.escape t.
Proof.
  intros Ht. rewrite go_data_escape_one_pass, escape_one_pass.
  unfold plain in Ht. induction t as [|c t IH]; [reflexivity|].
  cbn [forallb] in Ht. apply andb_true_iff in Ht as [Hc Ht].
  apply andb_true_iff in Hc as [H92 H13].
  apply negb_true_iff in H92, H13.
  cbn [flat_map]. rewrite (IH Ht). f_equal.
  unfold escape_quote_newline, escape_char. rewrite H92.
  destruct (c =? 34); [reflexivity|]. destruct (c =? 10); [reflexivity|].
  now rewrite H13.
Qed.

Lemma written_alike_literal `{!PyRuntime} ex s :
  written_alike ex s = true ->
  GoData.session_literal s = render_session (aligned_tags ex) s.
Proof.
  unfold written_alike. rewrite !andb_true_iff, bool_decide_eq_true.
  intros [[[Htags Htitle] Htrack] Habstract].
  unfold GoData.session_literal, render_session, Align.session_literal,
    tags_text. cbv zeta.
  now rewrite Htags, !plain_escape by assumption.
Qed.

(** X17: the Go writer of the fetcher and the aligned generator write the
    same text, preamble given, when every session carries the tags the
    aligned generator chooses for it and no title, track or abstract holds
    a backslash or a carriage return. *)
Theorem go_writers_agree `{!PyRuntime} (go_header : str)
    (data : gmap str (gmap str (list Session)))
    (existing_tags : gmap str (list str)) :
  forallb (written_alike existing_tags) (sessions_in_order data) = true ->
  GoData.generate_go_data go_header data
  = fst (Align.generate_aligned_go_data go_header data existing_tags).
Proof.
  intros Hall.
  rewrite generate_go_data_text, generate_aligned_go_data_render,
    render_data_text.
  apply data_text_ext. apply Forall_forall. intros s Hs.
  apply written_alike_literal. rewrite forallb_forall in Hall.
  apply Hall. now apply list_elem_of_In.
Qed.

Lemma go_writers_agree_witness :
  forallb (written_alike Sample.known_tags)
    (sessions_in_order Sample.tagged_schedule) = true /\
  GoData.generate_go_data [] Sample.tagged_schedule
  = fst (Align.generate_aligned_go_data [] Sample.tagged_schedule
           Sample.known_tags).
Proof.
  assert (Hall : forallb (written_alike Sample.known_tags)
                   (sessions_in_order Sample.tagged_schedule) = true)
    by (vm_compute; reflexivity).
  split; [exact Hall|].
  exact (@go_writers_agree AsciiRuntime.runtime [] _ _ Hall).
Defined.

(** ** Sorting again *)

Lemma sort_by_fixed {A} (key : A -> str) (l : list A) :
  StronglySorted (key_le key) l -> Pretalx.sort_by key l = l.
Proof.
  induction 1 as [|x l Hs IH Hall]; [reflexivity|].
  cbn [Pretalx.sort_by]. rewrite IH.
  destruct l as [|y l]; [reflexivity|]. cbn [Pretalx.insert_by].
  apply Forall_inv in Hall. unfold key_le, str_le in Hall.
  apply negb_true_iff in Hall. now rewrite Hall.
Qed.

(** X18: sorting is idempotent: a list that is in order of its keys is
    left as it is, so sorting twice is sorting once, and the sorting loop
    of [run] leaves an aggregate unchanged. *)
Theorem sorting_is_idempotent (sessions : list Session) :
  (forall l : list Session,
     StronglySorted start_le l -> Pretalx.sort_by start l = l) /\
  Pretalx.sort_by start (Pretalx.sort_by start sessions)
  = Pretalx.sort_by start sessions /\
  Pretalx.sort_buckets (Pretalx.aggregate sessions)
  = Pretalx.aggregate sessions.
Proof.
  assert (Hfix : forall l : list Session,
             Pretalx.sort_by start (Pretalx.sort_by start l)
             = Pretalx.sort_by start l).
  { intros l. apply sort_by_fixed, sort_by_sorted. }
  split; [intros l; apply (sort_by_fixed start)|]. split; [apply Hfix|].
  unfold Pretalx.aggregate, Pretalx.sort_buckets.
  apply map_eq. intros d. rewrite !lookup_fmap.
  destruct (fold_left Pretalx.insert_session sessions ∅ !! d) as [rooms|];
    [|reflexivity].
  cbn. f_equal. apply map_eq. intros r. rewrite !lookup_fmap.
  destruct (rooms !! r) as [l|]; [|reflexivity].
  cbn. f_equal. apply Hfix.
Qed.

(** ** The abstract in [generate_tags] *)

(** X19: [generate_tags] reads the abstract for the AI rule only: two
    records with the same track and title get the same tags as soon as
    their abstracts agree on holding a keyword of that rule. *)
Theorem generate_tags_reads_abstract_for_ai_only `{!PyRuntime}
    (track_ title_ abstract1 abstract2 : option str) :
  ai_abstract abstract1 = ai_abstract abstract2 ->
  Embedded.generate_tags
    {| Embedded.js_track := track_; Embedded.js_title := title_;
       Embedded.js_abstract := abstract1 |}
  = Embedded.generate_tags
      {| Embedded.js_track := track_; Embedded.js_title := title_;
         Embedded.js_abstract := abstract2 |}.
Proof.
  unfold ai_abstract. intros Hai.
  rewrite !generate_tags_table. unfold collected_tags.
  cbn [Embedded.js_track Embedded.js_title Embedded.js_abstract].
  set (track := str_lower (default [] track_)).
  set (title := str_lower (default [] title_)).
  set (a1 := str_lower (default [] abstract1)) in *.
  set (a2 := str_lower (default [] abstract2)) in *.
  assert (Hext : forall r, In r embedded_rules ->
                   field_fires track title a1 r = field_fires track title a2 r).
  { intros r Hr. unfold embedded_rules in Hr.
    repeat (destruct Hr as [<- | Hr];
            [unfold field_fires;
             first [ now rewrite Hai
                   | change (any_in [] a1) with false;
                     change (any_in [] a2) with false; reflexivity ]|]).
    destruct Hr. }
  now rewrite (filter_ext_in _ _ _ Hext).
Qed.

Lemma generate_tags_reads_abstract_for_ai_only_witness :
  ai_abstract (Some (u "about databases")) = ai_abstract None /\
  Embedded.generate_tags
    {| Embedded.js_track := None; Embedded.js_title := Some (u "Welcome");
       Embedded.js_abstract := Some (u "about databases") |}
  = Embedded.generate_tags
      {| Embedded.js_track := None; Embedded.js_title := Some (u "Welcome");
         Embedded.js_abstract := None |}.
Proof.
  assert (Hai : ai_abstract (Some (u "about databases")) = ai_abstract None)
    by (vm_compute; reflexivity).
  split; [exact Hai|].
  exact (@generate_tags_reads_abstract_for_ai_only AsciiRuntime.runtime
           None (Some (u "Welcome")) _ _ Hai).
Defined.

(** ** Known tags override *)

Lemma session_literal_text session tags :
  Align.session_literal session (tags_text tags) = session_text session tags.
Proof. reflexivity. Qed.

Lemma aligned_tags_known (R : PyRuntime) existing_tags session known :
  existing_tags !! code session = Some known ->
  @aligned_tags R existing_tags session = known.
Proof. intros Hk. unfold aligned_tags. now rewrite Hk. Qed.

Lemma generate_aligned_go_data_text (R : PyRuntime) header data existing_tags :
  fst (@Align.generate_aligned_go_data R header data existing_tags)
  = data_text (fun s => session_text s (@aligned_tags R existing_tags s))
      header data.
Proof.
  rewrite generate_aligned_go_data_render, render_data_text.
  apply data_text_ext, Forall_forall. intros s _.
  apply session_literal_text.
Qed.

(** C1: the text the aligned generator returns is the preamble, the day
    and room headers and, for every session in writing order, one literal:
    the session's own fields followed by one [Tags:] line.  For a session
    whose code is a key of the known-tags table that line lists the Go
    constants of exactly the tags the table has for the code, whatever the
    session's track, title and abstract are and whatever the classifier
    would find in them: the literal with the table's tags is in the
    output, the choice is the same under every runtime, and so is the
    whole output and the statistics when every session is known.  When the
    table's tags all have a constant, reading the constants of the line
    back gives the table's tags. *)
Theorem known_tags_override (R1 R2 : PyRuntime) (go_header : str)
    (data : gmap str (gmap str (list Session)))
    (existing_tags : gmap str (list str))
    (d r : str) (rooms : gmap str (list Session)) (sessions : list Session)
    (session : Session) (known : list str) :
  data !! d = Some rooms -> rooms !! r = Some sessions ->
  session ∈ sessions ->
  existing_tags !! code session = Some known ->
  fst (@Align.generate_aligned_go_data R1 go_header data existing_tags)
  = data_text (fun s => session_text s (@aligned_tags R1 existing_tags s))
      go_header data /\
  (forall (R : PyRuntime) (session' : Session),
     code session' = code session ->
     @aligned_tags R existing_tags session' = known /\
     session_text session' (@aligned_tags R existing_tags session')
     = session_text session' known) /\
  substring (session_text session known)
    (fst (@Align.generate_aligned_go_data R1 go_header data existing_tags)) /\
  (forall acc,
     @Align.emit_session R1 existing_tags acc session
     = @Align.emit_session R2 existing_tags acc session) /\
  (all_known existing_tags data ->
   @Align.generate_aligned_go_data R1 go_header data existing_tags
   = @Align.generate_aligned_go_data R2 go_header data existing_tags) /\
  (forallb has_constant known = true ->
   Align.labels_of_constants (List.map Align.tag_constant known) = known).
Proof.
  intros Hd Hr Hs Hk.
  split; [apply generate_aligned_go_data_text|].
  split.
  { intros R session' Hcode.
    assert (Hknown : @aligned_tags R existing_tags session' = known)
      by (apply aligned_tags_known; now rewrite Hcode).
    split; [exact Hknown | now rewrite Hknown]. }
  split.
  { rewrite generate_aligned_go_data_render.
    rewrite <- session_literal_text.
    replace (Align.session_literal session (tags_text known))
      with (render_session (@aligned_tags R1 existing_tags) session).
    - exact (render_contains _ _ _ _ _ _ _ _ Hd Hr Hs).
    - unfold render_session. now rewrite (aligned_tags_known R1 _ _ known Hk). }
  split; [intros acc; apply emit_session_known; now exists known|].
  split; [apply generate_aligned_go_data_known|].
  apply labels_of_tag_constants.
Qed.

Lemma known_tags_override_witness :
  Sample.schedule !! u "Aug.9" = Some {[ u "RB105" := [Sample.keynote_title] ]} /\
  ({[ u "RB105" := [Sample.keynote_title] ]} : gmap str (list Session))
    !! u "RB105" = Some [Sample.keynote_title] /\
  Sample.keynote_title ∈ [Sample.keynote_title] /\
  Sample.known_tags !! code Sample.keynote_title = Some [TagAI] /\
  substring (session_text Sample.keynote_title [TagAI])
    (fst (Align.generate_aligned_go_data [] Sample.schedule Sample.known_tags)) /\
  contains (tab ++ tab ++ tab ++ tab ++ u "Tags:       []string{TagAI}," ++ newline)
    (fst (Align.generate_aligned_go_data [] Sample.schedule Sample.known_tags))
  = true /\
  Align.generate_fallback_tags Sample.keynote_title = [TagKeynote] /\
  contains (u "TagKeynote")
    (fst (Align.generate_aligned_go_data [] Sample.schedule Sample.known_tags))
  = false.
Proof.
  assert (Hd : Sample.schedule !! u "Aug.9"
               = Some {[ u "RB105" := [Sample.keynote_title] ]})
    by (vm_compute; reflexivity).
  assert (Hr : ({[ u "RB105" := [Sample.keynote_title] ]}
                  : gmap str (list Session)) !! u "RB105"
               = Some [Sample.keynote_title])
    by (vm_compute; reflexivity).
  assert (Hs : Sample.keynote_title ∈ [Sample.keynote_title]) by (left).
  assert (Hk : Sample.known_tags !! code Sample.keynote_title = Some [TagAI])
    by (vm_compute; reflexivity).
  split; [exact Hd|]. split; [exact Hr|]. split; [exact Hs|]. split; [exact Hk|].
  split.
  - exact (proj1 (proj2 (proj2
             (known_tags_override AsciiRuntime.runtime AsciiRuntime.runtime
                [] _ _ _ _ _ _ _ _ Hd Hr Hs Hk)))).
  - vm_compute. repeat split.
Defined.
